(** * Amazon Sales Dashboard (dsa.py): filter engine and question matcher

    A shallow embedding of the two Dash callbacks of [dsa.py],
    [update_dashboard] and [analyze_data_view], together with the parts of
    Python, [re] and pandas they rely on.

    Modelling conventions.
    - A Python [str] is a [string] of bytes; case mapping, whitespace and
      the regex classes [\w] and [\s] are the ASCII restrictions of the
      Python ones, other bytes are left alone.
    - The cleaned table [df] is a list of rows with the fixed schema of
      the loader (every column of [expected_cols] is present, rows with
      an invalid Date or Amount are dropped).  Every text cell of a row
      holds a string: a table with a missing text cell is outside the
      model.
    - [Amount] is an exact decimal counted in hundredths; binary rounding
      of float64 is not modelled.
    - Exceptions are values of a small error monad. *)

From Stdlib Require Import String Ascii List ZArith Lia Bool Arith PeanoNat.
From Stdlib Require Import DecimalString Sorted Permutation OrderedTypeEx.
Import ListNotations.

Open Scope list_scope.
Open Scope string_scope.

(** ** Exceptions *)

Inductive exn : Type :=
| ValueError (msg : string)
| ZeroDivisionError
| Unmodelled.

Inductive result (A : Type) : Type :=
| Ok (a : A)
| Raise (e : exn).

Arguments Ok {A} a.
Arguments Raise {A} e.

Definition bind {A B : Type} (m : result A) (k : A -> result B) : result B :=
  match m with
  | Ok a => k a
  | Raise e => Raise e
  end.

Notation "x <- m ;; k" := (bind m (fun x => k))
  (at level 61, m at next level, right associativity).

(** ** Python strings *)

Module PyStr.

Definition code (c : ascii) : nat := nat_of_ascii c.

Definition between (lo hi : nat) (c : ascii) : bool :=
  Nat.leb lo (code c) && Nat.leb (code c) hi.

(** [str.isspace] on the ASCII range: TAB..CR, FS..US and SPACE. *)
Definition is_space (c : ascii) : bool := between 9 13 c || between 28 32 c.
Definition is_upper (c : ascii) : bool := between 65 90 c.
Definition is_lower (c : ascii) : bool := between 97 122 c.
Definition is_digit (c : ascii) : bool := between 48 57 c.
Definition is_cased (c : ascii) : bool := is_upper c || is_lower c.

(** The regex class [\w]. *)
Definition is_word (c : ascii) : bool :=
  is_upper c || is_lower c || is_digit c || Ascii.eqb c "_".

Definition lower_char (c : ascii) : ascii :=
  if is_upper c then ascii_of_nat (code c + 32) else c.
Definition upper_char (c : ascii) : ascii :=
  if is_lower c then ascii_of_nat (code c - 32) else c.

Fixpoint lower (s : string) : string :=
  match s with
  | EmptyString => EmptyString
  | String c s' => String (lower_char c) (lower s')
  end.

Fixpoint lstrip (s : string) : string :=
  match s with
  | EmptyString => EmptyString
  | String c s' => if is_space c then lstrip s' else s
  end.

Fixpoint rstrip (s : string) : string :=
  match s with
  | EmptyString => EmptyString
  | String c s' =>
      match rstrip s' with
      | EmptyString => if is_space c then EmptyString else String c EmptyString
      | r => String c r
      end
  end.

Definition strip (s : string) : string := rstrip (lstrip s).

(** [str.title]: a cased character is upper-cased when it follows an
    uncased one (or starts the string) and lower-cased otherwise. *)
Fixpoint title_from (previous_is_cased : bool) (s : string) : string :=
  match s with
  | EmptyString => EmptyString
  | String c s' =>
      if is_lower c then
        String (if previous_is_cased then c else upper_char c) (title_from true s')
      else if is_upper c then
        String (if previous_is_cased then lower_char c else c) (title_from true s')
      else String c (title_from false s')
  end.

Definition title (s : string) : string := title_from false s.

(** [sub in s] *)
Fixpoint contains (sub s : string) : bool :=
  prefix sub s ||
  match s with
  | EmptyString => false
  | String _ s' => contains sub s'
  end.

(** Truthiness of a [str]. *)
Definition truthy (s : string) : bool :=
  match s with
  | EmptyString => false
  | String _ _ => true
  end.

Fixpoint all_space (s : string) : bool :=
  match s with
  | EmptyString => true
  | String c s' => is_space c && all_space s'
  end.

Fixpoint drop (n : nat) (s : string) : string :=
  match n, s with
  | O, _ => s
  | S n', String _ s' => drop n' s'
  | S _, EmptyString => EmptyString
  end.

Fixpoint take (n : nat) (s : string) : string :=
  match n, s with
  | S n', String c s' => String c (take n' s')
  | _, _ => EmptyString
  end.

Definition newline : string := String (ascii_of_nat 10) EmptyString.

(** [sep.join(parts)] *)
Definition join (sep : string) (parts : list string) : string :=
  String.concat sep parts.

End PyStr.

(** ** The fragment of [re] used by the matcher

    Literals, alternation, sequencing, numbered groups and a repeated
    character class (greedy or lazy).  [run r s] lists the ways [r] can
    match a prefix of [s] in the order a backtracking matcher tries them,
    so the head of the list is the match [re] reports. *)

Module Re.

Inductive regex : Type :=
| Lit (s : string)
| Alt (r1 r2 : regex)
| Seq (r1 r2 : regex)
| Rep (cls : ascii -> bool) (min : nat) (greedy : bool)
| Grp (n : nat) (r : regex).

Definition captures : Type := list (nat * string).

(** The inputs left after consuming 0, 1, 2, ... characters of the class. *)
Fixpoint runs (cls : ascii -> bool) (s : string) : list string :=
  s :: match s with
       | EmptyString => []
       | String c s' => if cls c then runs cls s' else []
       end.

Fixpoint run (r : regex) (s : string) : list (captures * string) :=
  match r with
  | Lit l => if prefix l s then [([], PyStr.drop (String.length l) s)] else []
  | Alt r1 r2 => (run r1 s ++ run r2 s)%list
  | Seq r1 r2 =>
      flat_map (fun m1 =>
                  map (fun m2 => ((fst m1 ++ fst m2)%list, snd m2)) (run r2 (snd m1)))
               (run r1 s)
  | Rep cls min greedy =>
      let rests := skipn min (runs cls s) in
      map (fun rest => ([], rest)) (if greedy then rev rests else rests)
  | Grp n r1 =>
      map (fun m =>
             ((n, PyStr.take (String.length s - String.length (snd m)) s) :: fst m,
              snd m))
          (run r1 s)
  end.

(** [re.search(r, s)]: the first match at the leftmost position. *)
Fixpoint search (r : regex) (s : string) : option captures :=
  match run r s with
  | m :: _ => Some (fst m)
  | [] =>
      match s with
      | EmptyString => None
      | String _ s' => search r s'
      end
  end.

(** [m.group(n)] *)
Fixpoint group (n : nat) (m : captures) : string :=
  match m with
  | [] => EmptyString
  | (k, v) :: m' => if Nat.eqb k n then v else group n m'
  end.

Definition is_match (m : option captures) : bool :=
  match m with
  | Some _ => true
  | None => false
  end.

(** A pattern that is plain text apart from [.], compiled with
    [re.IGNORECASE]: the way [Series.str.contains(pat, case=False)] reads
    the phrases the matcher extracts (made of [\w], [\s], [.] and [-]). *)
Fixpoint of_text_ignorecase (pat : string) : list (ascii -> bool) :=
  match pat with
  | EmptyString => []
  | String p pat' =>
      (if Ascii.eqb p "."
       then (fun c => negb (Ascii.eqb c (ascii_of_nat 10)))
       else (fun c => Ascii.eqb (PyStr.lower_char c) (PyStr.lower_char p)))
        :: of_text_ignorecase pat'
  end.

Fixpoint match_here (pat : list (ascii -> bool)) (s : string) : bool :=
  match pat, s with
  | [], _ => true
  | _ :: _, EmptyString => false
  | p :: pat', String c s' => p c && match_here pat' s'
  end.

Fixpoint search_here (pat : list (ascii -> bool)) (s : string) : bool :=
  match_here pat s ||
  match s with
  | EmptyString => false
  | String _ s' => search_here pat s'
  end.

End Re.

(** ** Format specifiers and number rendering

    [parse_format_spec] follows the standard format-specification grammar
    [[[fill]align][sign][z][#][0][width][grouping][.precision][type]] the
    way the interpreter reads it, left to right with no backtracking; text
    left over after the optional one-character type is an error. *)

Module PyFormat.

Record format_spec : Type := mk_spec {
  fill_char : option ascii;
  align : option ascii;
  sign : option ascii;
  no_neg_0 : bool;
  alternate : bool;
  width : option nat;
  thousands : option ascii;
  precision : option nat;
  type : option ascii
}.

Definition is_alignment_token (c : ascii) : bool :=
  Ascii.eqb c "<" || Ascii.eqb c ">" || Ascii.eqb c "=" || Ascii.eqb c "^".

Definition is_sign_element (c : ascii) : bool :=
  Ascii.eqb c " " || Ascii.eqb c "+" || Ascii.eqb c "-".

(** Optional [fill] and [align]. *)
Definition parse_fill_align (s : string) : option ascii * option ascii * string :=
  match s with
  | String f (String a rest) =>
      if is_alignment_token a then (Some f, Some a, rest)
      else if is_alignment_token f then (None, Some f, String a rest)
      else (None, None, s)
  | String a EmptyString =>
      if is_alignment_token a then (None, Some a, EmptyString) else (None, None, s)
  | EmptyString => (None, None, s)
  end.

(** An optional single character satisfying [p]. *)
Definition parse_opt (p : ascii -> bool) (s : string) : option ascii * string :=
  match s with
  | String c rest => if p c then (Some c, rest) else (None, s)
  | EmptyString => (None, s)
  end.

Definition digit_value (c : ascii) : nat := PyStr.code c - 48.

(** A run of decimal digits: its value (when there is at least one digit)
    and the rest of the input. *)
Fixpoint parse_digits (acc : option nat) (s : string) : option nat * string :=
  match s with
  | String c rest =>
      if PyStr.is_digit c
      then parse_digits
             (Some (10 * match acc with Some n => n | None => 0 end + digit_value c))
             rest
      else (acc, s)
  | EmptyString => (acc, s)
  end.

Definition isSome {A : Type} (o : option A) : bool :=
  match o with Some _ => true | None => false end.

Definition parse_format_spec (spec : string) : option format_spec :=
  let '(fill, algn, s) := parse_fill_align spec in
  let '(sgn, s) := parse_opt is_sign_element s in
  let '(z, s) := parse_opt (Ascii.eqb "z") s in
  let '(alt, s) := parse_opt (Ascii.eqb "#") s in
  let '(zero, s) := if isSome fill then (None, s) else parse_opt (Ascii.eqb "0") s in
  let fill := if isSome zero then Some "0"%char else fill in
  let algn := if isSome zero && negb (isSome algn) then Some "="%char else algn in
  let '(wdth, s) := parse_digits None s in
  let '(comma, s) := parse_opt (Ascii.eqb ",") s in
  let '(underscore, s) := parse_opt (Ascii.eqb "_") s in
  if isSome comma && isSome underscore then None
  else
    let '(comma2, s) := parse_opt (Ascii.eqb ",") s in
    if isSome comma2 then None
    else
      let sep := if isSome comma then comma else underscore in
      let prec :=
        match s with
        | String "." rest =>
            match parse_digits None rest with
            | (Some p, rest') => Some (Some p, rest')
            | (None, _) => None
            end
        | _ => Some (None, s)
        end in
      match prec with
      | None => None
      | Some (p, s) =>
          match s with
          | EmptyString =>
              Some (mk_spec fill algn sgn (isSome z) (isSome alt) wdth sep p None)
          | String t EmptyString =>
              Some (mk_spec fill algn sgn (isSome z) (isSome alt) wdth sep p (Some t))
          | String _ (String _ _) => None
          end
      end.

(** The decimal digits of a natural number. *)
Definition digits (n : N) : string := NilZero.string_of_uint (N.to_uint n).

(** Insert [,] between groups of three, on the digits in reverse order. *)
Fixpoint group3 (count : nat) (rev_digits : list ascii) : list ascii :=
  match rev_digits with
  | [] => []
  | d :: ds =>
      if Nat.eqb count 3 then ","%char :: d :: group3 1 ds
      else d :: group3 (S count) ds
  end.

Definition with_commas (ds : string) : string :=
  string_of_list_ascii (rev (group3 0 (rev (list_ascii_of_string ds)))).

Definition two_digits (n : N) : string :=
  if (n <? 10)%N then "0" ++ digits n else digits n.

(** [f"{n:,}"] for an [int]. *)
Definition int_commas (n : Z) : string :=
  (if (n <? 0)%Z then "-" else EmptyString) ++ with_commas (digits (Z.abs_N n)).

(** Round the quotient [num / den] to the nearest integer, ties to even. *)
Definition round_half_even (num den : N) : N :=
  let q := (num / den)%N in
  let r := (num mod den)%N in
  match (2 * r ?= den)%N with
  | Lt => q
  | Gt => (q + 1)%N
  | Eq => if N.even q then q else (q + 1)%N
  end.

(** [f"{x:,.2f}"] for the float [x] of [total / n] hundredths, [n > 0]. *)
Definition money_ratio (total : Z) (n : nat) : string :=
  let m := round_half_even (Z.abs_N total) (N.of_nat n) in
  (if (total <? 0)%Z then "-" else EmptyString)
    ++ with_commas (digits (m / 100)) ++ "." ++ two_digits (m mod 100).

Definition plain (fs : format_spec) : bool :=
  negb (isSome (fill_char fs)) && negb (isSome (align fs)) && negb (isSome (sign fs))
  && negb (no_neg_0 fs) && negb (alternate fs) && negb (isSome (width fs)).

Definition is_char (c : ascii) (o : option ascii) : bool :=
  match o with Some d => Ascii.eqb c d | None => false end.

End PyFormat.

(** ** The table and the pandas operations the callbacks use *)

Record date : Type := mk_date { year : nat; month : nat; day : nat }.

(** One cleaned row of [df]; the fields are the columns of [df_cols]. *)
Record row : Type := mk_row {
  Date : date;
  Category : string;
  ship_state : string;
  Status : string;
  Amount : Z;
  ship_city : string;
  Month : string;
  Order_ID : string
}.

Definition DataFrame : Type := list row.

(** A number as the callbacks format it: an [int], or a float given as a
    quotient of hundredths (a sum is [Float s 1], a mean [Float s n]). *)
Inductive number : Type :=
| Int (n : Z)
| Float (hundredths : Z) (den : nat).

Module Pandas.

(** [df.columns] *)
Definition columns : list string :=
  ["Date"; "Category"; "ship-state"; "Status"; "Amount"; "ship-city"; "Month"; "Order ID"].

Definition has_column (c : string) : bool := existsb (String.eqb c) columns.

(** [d.empty] *)
Definition empty {A : Type} (d : list A) : bool :=
  match d with
  | [] => true
  | _ :: _ => false
  end.

(** [s.dropna()] on a column of strings: no cell is missing. *)
Definition dropna (s : list string) : list string := s.

(** [d[d[col].isin(values)]] *)
Definition isin (col : row -> string) (values : list string) (d : DataFrame) : DataFrame :=
  filter (fun r => existsb (String.eqb (col r)) values) d.

(** [d[d[col] == v]] *)
Definition where_eq (col : row -> string) (v : string) (d : DataFrame) : DataFrame :=
  filter (fun r => String.eqb (col r) v) d.

(** [s.str.contains(pat, case=False, na=False)] on one cell. *)
Definition str_contains (pat : string) (cell : string) : bool :=
  Re.search_here (Re.of_text_ignorecase pat) cell.

(** [d[d[col].str.contains(pat, case=False, na=False)]] *)
Definition where_contains (col : row -> string) (pat : string) (d : DataFrame) : DataFrame :=
  filter (fun r => str_contains pat (col r)) d.

(** [s.unique()]: the distinct values in order of first appearance. *)
Fixpoint unique_from (seen : list string) (s : list string) : list string :=
  match s with
  | [] => []
  | x :: s' =>
      if existsb (String.eqb x) seen then unique_from seen s'
      else x :: unique_from (x :: seen) s'
  end.

Definition unique (s : list string) : list string := unique_from [] s.

(** [v in s.unique()] *)
Definition member (v : string) (s : list string) : bool := existsb (String.eqb v) s.

(** [d["Amount"].sum()] *)
Definition sum (d : DataFrame) : Z := fold_left (fun acc r => (acc + Amount r)%Z) d 0%Z.

(** A grouped series: labels with their values. *)
Definition series (V : Type) : Type := list (string * V).

(** One more row for the group [k] of a series kept sorted by label. *)
Fixpoint add_to_group (k : string) (a : Z) (g : series Z) : series Z :=
  match g with
  | [] => [(k, a)]
  | (k', a') :: g' =>
      match String.compare k k' with
      | Eq => (k', (a' + a)%Z) :: g'
      | Lt => (k, a) :: g
      | Gt => (k', a') :: add_to_group k a g'
      end
  end.

(** [d.groupby(col)["Amount"].sum()]: one entry per group, the group
    labels sorted ([sort=True] is the default of [groupby]). *)
Definition groupby_sum (col : row -> string) (d : DataFrame) : series Z :=
  fold_left (fun g r => add_to_group (col r) (Amount r) g) d [].

(** A stable insertion sort by a total preorder [le] on values. *)
Fixpoint insert {V : Type} (le : V -> V -> bool) (x : string * V) (s : series V) : series V :=
  match s with
  | [] => [x]
  | y :: s' => if le (snd x) (snd y) then x :: s else y :: insert le x s'
  end.

Definition sort_by {V : Type} (le : V -> V -> bool) (s : series V) : series V :=
  fold_right (insert le) [] s.

(** [s.sort_values()]: ascending. *)
Definition sort_values (s : series Z) : series Z := sort_by Z.leb s.

(** [s.nlargest(n)]: the [n] largest entries, largest first; among equal
    values the earlier entries of [s] come first ([keep="first"]). *)
Definition nlargest (n : nat) (s : series Z) : series Z :=
  firstn n (sort_by Z.geb s).

(** [s.idxmax()]: the label of the first entry holding the maximum. *)
Fixpoint first_max (s : series Z) : option (string * Z) :=
  match s with
  | [] => None
  | (k, v) :: s' =>
      match first_max s' with
      | Some (k', v') => if (v <? v')%Z then Some (k', v') else Some (k, v)
      | None => Some (k, v)
      end
  end.

Definition idxmax (s : series Z) : result string :=
  match first_max s with
  | Some (k, _) => Ok k
  | None => Raise (ValueError "attempt to get argmax of an empty sequence")
  end.

(** [s.max()]; the series is never empty where the callbacks ask for it. *)
Definition max (s : series Z) : Z :=
  match first_max s with
  | Some (_, v) => v
  | None => 0%Z
  end.

(** One more occurrence of [k], labels kept in order of first appearance. *)
Fixpoint add_count (k : string) (g : series nat) : series nat :=
  match g with
  | [] => [(k, 1)]
  | (k', n) :: g' =>
      if String.eqb k k' then (k', S n) :: g' else (k', n) :: add_count k g'
  end.

(** [d[col].value_counts()]: occurrences per value, most frequent first. *)
Definition value_counts (col : row -> string) (d : DataFrame) : series nat :=
  sort_by (fun a b => Nat.leb b a) (fold_left (fun g r => add_count (col r) g) d []).

End Pandas.

(** The value of a multi-select dropdown: [None] or a list of options. *)
Definition selection : Type := option (list string).

(** Truthiness of a dropdown value: [None] and [[]] are falsy. *)
Definition selected (s : selection) : bool :=
  match s with
  | Some (_ :: _) => true
  | _ => false
  end.

Definition options (s : selection) : list string :=
  match s with
  | Some l => l
  | None => []
  end.

(** ** Rendering of numbers and dates inside f-strings *)

Definition fixed2 (hundredths : Z) (den : nat) : string :=
  PyFormat.money_ratio hundredths den.

(** [format(v, spec)]: a malformed specifier raises [ValueError]; of the
    well-formed ones the two the program uses, [,.2f] and [,], are
    rendered. *)
Definition format (v : number) (spec : string) : result string :=
  match PyFormat.parse_format_spec spec with
  | None => Raise (ValueError "Invalid format specifier")
  | Some fs =>
      if PyFormat.plain fs && PyFormat.is_char "," (PyFormat.thousands fs) then
        match PyFormat.type fs, PyFormat.precision fs, v with
        | Some "f"%char, Some 2, Float a n => Ok (fixed2 a n)
        | Some "f"%char, Some 2, Int n => Ok (fixed2 (100 * n) 1)
        | None, None, Int n => Ok (PyFormat.int_commas n)
        | _, _, _ => Raise Unmodelled
        end
      else Raise Unmodelled
  end.

Definition pad (width : nat) (n : nat) : string :=
  let ds := PyFormat.digits (N.of_nat n) in
  string_of_list_ascii (repeat "0"%char (width - String.length ds)) ++ ds.

(** [d.strftime("%Y-%m-%d")] *)
Definition strftime (d : date) : string :=
  pad 4 (year d) ++ "-" ++ pad 2 (month d) ++ "-" ++ pad 2 (day d).

(** ** The dashboard callback *)

Inductive figure : Type :=
| empty_figure (title : string)
| line (title : string) (points : Pandas.series Z)
| bar (title : string) (bars : Pandas.series Z)
| pie (title : string) (slices : Pandas.series nat).

(** [create_empty_figure(title)] *)
Definition create_empty_figure (title : string) : figure := empty_figure title.

(** A KPI card: [html.Div([html.H3(heading), html.P(text)])]. *)
Record kpi_card : Type := mk_kpi { heading : string; text : string }.

Record dashboard : Type := mk_dashboard {
  sales_trend : figure;
  top_categories : figure;
  top_cities : figure;
  order_status : figure;
  kpi_container : list kpi_card
}.

(** [x / n] on numbers. *)
Definition truediv (x : Z) (n : nat) : result number :=
  if Nat.eqb n 0 then Raise ZeroDivisionError else Ok (Float x n).

(** Lines 190-195: the filtered frame of [update_dashboard]. *)
Definition dashboard_dff (df : DataFrame)
    (selected_categories selected_states selected_statuses : selection) : DataFrame :=
  let dff := df in
  let dff := if selected selected_categories
             then Pandas.isin Category (options selected_categories) dff else dff in
  let dff := if selected selected_states
             then Pandas.isin ship_state (options selected_states) dff else dff in
  let dff := if selected selected_statuses
             then Pandas.isin Status (options selected_statuses) dff else dff in
  dff.

(** [dff.groupby("Month")["Amount"].sum().reset_index().sort_values("Month")]:
    the groups already come sorted by month. *)
Definition monthly_sales (dff : DataFrame) : Pandas.series Z :=
  Pandas.groupby_sum Month dff.

(** [dff.groupby(col)["Amount"].sum().nlargest(10).sort_values()] *)
Definition top10 (col : row -> string) (dff : DataFrame) : Pandas.series Z :=
  Pandas.sort_values (Pandas.nlargest 10 (Pandas.groupby_sum col dff)).

Definition update_dashboard (df : DataFrame)
    (selected_categories selected_states selected_statuses : selection)
  : result dashboard :=
  let dff := dashboard_dff df selected_categories selected_states selected_statuses in
  if Pandas.empty dff then
    let no_data_title := "No data for current filters" in
    let empty_fig := create_empty_figure no_data_title in
    let empty_kpis :=
      [mk_kpi "💰 Total Sales" "₹0.00";
       mk_kpi "📦 Total Orders" "0";
       mk_kpi "🧾 Avg Order Value" "₹0.00"] in
    Ok (mk_dashboard empty_fig empty_fig empty_fig empty_fig empty_kpis)
  else
    let total_sales := Pandas.sum dff in
    let total_orders := List.length dff in
    avg_order_value <-
      (if Nat.ltb 0 total_orders then truediv total_sales total_orders else Ok (Int 0)) ;;
    sales_text <- format (Float total_sales 1) ",.2f" ;;
    orders_text <- format (Int (Z.of_nat total_orders)) "," ;;
    avg_text <- format avg_order_value ",.2f" ;;
    let kpis :=
      [mk_kpi "💰 Total Sales" ("₹" ++ sales_text);
       mk_kpi "📦 Total Orders" orders_text;
       mk_kpi "🧾 Avg Order Value" ("₹" ++ avg_text)] in
    let fig1 := create_empty_figure "📈 Monthly Sales Trend" in
    let fig2 := create_empty_figure "📊 Top 10 Categories by Sales" in
    let fig3 := create_empty_figure "📍 Top 10 Cities by Sales" in
    let fig4 := create_empty_figure "📋 Order Status Distribution" in
    let '(fig1, fig2, fig3, fig4) :=
      if negb (Pandas.empty dff) then
        let fig1 :=
          if Pandas.has_column "Month" && negb (Pandas.empty (Pandas.dropna (map Month dff)))
          then
            let sales_trend := monthly_sales dff in
            if negb (Pandas.empty sales_trend)
            then line "📈 Monthly Sales Trend" sales_trend else fig1
          else fig1 in
        let fig2 :=
          if Pandas.has_column "Category"
             && negb (Pandas.empty (Pandas.dropna (map Category dff)))
          then
            let top_cat := top10 Category dff in
            if negb (Pandas.empty top_cat)
            then bar "📊 Top 10 Categories by Sales" top_cat else fig2
          else fig2 in
        let fig3 :=
          if Pandas.has_column "ship-city"
             && negb (Pandas.empty (Pandas.dropna (map ship_city dff)))
          then
            let top_city := top10 ship_city dff in
            if negb (Pandas.empty top_city)
            then bar "📍 Top 10 Cities by Sales" top_city else fig3
          else fig3 in
        let fig4 :=
          if Pandas.has_column "Status"
             && negb (Pandas.empty (Pandas.dropna (map Status dff)))
          then
            let order_status := Pandas.value_counts Status dff in
            if negb (Pandas.empty order_status)
            then pie "📋 Order Status Distribution" order_status else fig4
          else fig4 in
        (fig1, fig2, fig3, fig4)
      else (fig1, fig2, fig3, fig4) in
    Ok (mk_dashboard fig1 fig2 fig3 fig4 kpis).

(** ** The question callback *)

(** [dcc.Markdown(children)] *)
Inductive component : Type :=
| Markdown (children : string).

(** [(sales|orders|count)\s+(?:in|for|from)\s+([\w\s.-]+)] *)
Definition re_specific : Re.regex :=
  Re.Seq (Re.Grp 1 (Re.Alt (Re.Lit "sales") (Re.Alt (Re.Lit "orders") (Re.Lit "count"))))
 (Re.Seq (Re.Rep PyStr.is_space 1 true)
 (Re.Seq (Re.Alt (Re.Lit "in") (Re.Alt (Re.Lit "for") (Re.Lit "from")))
 (Re.Seq (Re.Rep PyStr.is_space 1 true)
         (Re.Grp 2 (Re.Rep (fun c => PyStr.is_word c || PyStr.is_space c
                                     || Ascii.eqb c "." || Ascii.eqb c "-") 1 true))))).

(** [(details|info|status)\s+(?:for|of)\s+order\s+([\w\-/]+)] *)
Definition re_order : Re.regex :=
  Re.Seq (Re.Grp 1 (Re.Alt (Re.Lit "details") (Re.Alt (Re.Lit "info") (Re.Lit "status"))))
 (Re.Seq (Re.Rep PyStr.is_space 1 true)
 (Re.Seq (Re.Alt (Re.Lit "for") (Re.Lit "of"))
 (Re.Seq (Re.Rep PyStr.is_space 1 true)
 (Re.Seq (Re.Lit "order")
 (Re.Seq (Re.Rep PyStr.is_space 1 true)
         (Re.Grp 2 (Re.Rep (fun c => PyStr.is_word c || Ascii.eqb c "-"
                                     || Ascii.eqb c "/") 1 true))))))).

(** [count ([\w\s]+?)\s*(?:orders|status)] *)
Definition re_status_count : Re.regex :=
  Re.Seq (Re.Lit "count ")
 (Re.Seq (Re.Grp 1 (Re.Rep (fun c => PyStr.is_word c || PyStr.is_space c) 1 false))
 (Re.Seq (Re.Rep PyStr.is_space 0 true)
         (Re.Alt (Re.Lit "orders") (Re.Lit "status")))).

Definition bot_prefix : string := "🤖 ".

(** Truthiness of the text-area value, which is [None] or a [str]. *)
Definition asked (user_message : option string) : bool :=
  match user_message with
  | Some s => PyStr.truthy s
  | None => false
  end.

Definition text_of (user_message : option string) : string :=
  match user_message with
  | Some s => s
  | None => EmptyString
  end.

(** Lines 278-287: the filtered frame of [analyze_data_view], with
    [filter_desc] ([filter_active] is never read). *)
Definition question_dff (df : DataFrame)
    (selected_categories selected_states selected_statuses : selection)
  : DataFrame * string :=
  let dff := df in
  let filter_desc := "overall data" in
  if selected selected_categories || selected selected_states || selected selected_statuses
  then
    let filter_desc := "current filtered view" in
    let dff := if selected selected_categories
               then Pandas.isin Category (options selected_categories) dff else dff in
    let dff := if selected selected_states
               then Pandas.isin ship_state (options selected_states) dff else dff in
    let dff := if selected selected_statuses
               then Pandas.isin Status (options selected_statuses) dff else dff in
    (dff, filter_desc)
  else (dff, filter_desc).

Definition prompt_message : string :=
  "Please ask a question about the current data view.".

Definition no_data_message (filter_desc : string) : string :=
  "📉 No data found for the " ++ filter_desc ++ ". Please broaden your filters.".

Definition default_response (filter_desc : string) : string :=
  "🤔 I'm not sure how to interpret that for the " ++ filter_desc
  ++ ". Try asking about totals, averages, tops, counts, or specifics like 'sales in Mumbai' or 'details for order 123-456'.".

Definition failure_response (filter_desc : string) : string :=
  "🤖 Oops! Something went wrong while analyzing the " ++ filter_desc
  ++ ". Please check the data or try a different question.".

(** The specifier written in the three entity answers (lines 308, 313,
    319): everything between the colon and the closing brace. *)
Definition entity_spec : string := ",.2f if metric == 'sales' else ','".

(** The f-string of an entity answer, its fields evaluated left to right. *)
Definition entity_answer (icon kind shown metric filter_desc : string) (metric_val : number)
  : result string :=
  let currency := if String.eqb metric "sales" then "₹" else EmptyString in
  value <- format metric_val entity_spec ;;
  Ok (icon ++ " " ++ PyStr.title metric ++ " for " ++ kind ++ "**" ++ shown ++ "** in the "
      ++ filter_desc ++ ": **" ++ currency ++ value ++ "**.").

(** [specific_df['Amount'].sum() if metric == "sales" else len(specific_df)] *)
Definition metric_of (metric : string) (specific_df : DataFrame) : number :=
  if String.eqb metric "sales" then Float (Pandas.sum specific_df) 1
  else Int (Z.of_nat (List.length specific_df)).

(** Lines 302-321. *)
Definition answer_specific (dff : DataFrame) (filter_desc : string) (m : Re.captures)
    (response : string) : result string :=
  let metric := Re.group 1 m in
  let entity := PyStr.strip (Re.group 2 m) in
  let entity_title := PyStr.title entity in
  let found_entity := false in
  found <-
    (if Pandas.has_column "ship-city"
        && Pandas.member entity_title (Pandas.unique (map ship_city dff))
     then
       let specific_df := Pandas.where_eq ship_city entity_title dff in
       let metric_val := metric_of metric specific_df in
       response <- entity_answer "🏙️" "city " entity_title metric filter_desc metric_val ;;
       Ok (response, true)
     else if Pandas.has_column "ship-state"
             && Pandas.member entity_title (Pandas.unique (map ship_state dff))
     then
       let specific_df := Pandas.where_eq ship_state entity_title dff in
       let metric_val := metric_of metric specific_df in
       response <- entity_answer "📍" "state " entity_title metric filter_desc metric_val ;;
       Ok (response, true)
     else if Pandas.has_column "Category"
             && existsb (Pandas.str_contains entity) (map Category dff)
     then
       let specific_df := Pandas.where_contains Category entity dff in
       let matched_cats := Pandas.unique (map Category specific_df) in
       let cat_name_display :=
         match matched_cats with
         | [c] => c
         | _ => "categories matching '" ++ entity ++ "'"
         end in
       let metric_val := metric_of metric specific_df in
       response <- entity_answer "📂" EmptyString cat_name_display metric filter_desc metric_val ;;
       Ok (response, true)
     else Ok (response, found_entity)) ;;
  let '(response, found_entity) := found in
  if negb found_entity
  then Ok ("❓ Could not find '" ++ entity ++ "' as a city, state, or category in the "
           ++ filter_desc ++ ".")
  else Ok response.

Definition excluded_message (order_id filter_desc : string) : string :=
  "🚫 Order **" ++ order_id ++ "** exists but is not in the " ++ filter_desc
  ++ ". Try removing filters.".

Definition not_found_message (order_id : string) : string :=
  "🚫 Order ID **" ++ order_id ++ "** not found in the dataset.".

Definition status_message (order_id filter_desc : string) (order_data : row) : string :=
  "🏷️ Status for order **" ++ order_id ++ "** in " ++ filter_desc ++ ": **"
  ++ Status order_data ++ "**.".

Definition details_message (order_id filter_desc : string) (order_data : row)
  : result string :=
  amount <- format (Float (Amount order_data) 1) ",.2f" ;;
  let details :=
    ["📋 Details for Order ID **" ++ order_id ++ "** (found in " ++ filter_desc ++ "):";
     "- **Date:** " ++ strftime (Date order_data);
     "- **Status:** " ++ Status order_data;
     "- **Amount:** ₹" ++ amount;
     "- **Category:** " ++ Category order_data;
     "- **Ship to City:** " ++ ship_city order_data;
     "- **Ship to State:** " ++ ship_state order_data] in
  Ok (PyStr.join PyStr.newline details).

(** Lines 323-343. *)
Definition answer_order (df dff : DataFrame) (filter_desc : string) (m : Re.captures)
  : result string :=
  let action := Re.group 1 m in
  let order_id := PyStr.strip (Re.group 2 m) in
  if negb (Pandas.has_column "Order ID")
  then Ok "❗ Cannot look up orders as 'Order ID' column is missing."
  else
    let order_df := Pandas.where_eq Order_ID order_id dff in
    match order_df with
    | order_data :: _ =>
        if String.eqb action "status"
        then Ok (status_message order_id filter_desc order_data)
        else details_message order_id filter_desc order_data
    | [] =>
        let original_order_df := Pandas.where_eq Order_ID order_id df in
        if negb (Pandas.empty original_order_df)
        then Ok (excluded_message order_id filter_desc)
        else Ok (not_found_message order_id)
    end.

(** A [for] loop appending one formatted line per entry. *)
Fixpoint for_each {A B : Type} (f : A -> result B) (l : list A) : result (list B) :=
  match l with
  | [] => Ok []
  | x :: l' => y <- f x ;; ys <- for_each f l' ;; Ok (y :: ys)
  end.

(** The "top category / city / state" answers (lines 354, 357, 360). *)
Definition answer_top (icon what : string) (col : row -> string) (dff : DataFrame)
    (filter_desc : string) : result string :=
  top_calc <- Pandas.idxmax (Pandas.groupby_sum col dff) ;;
  let top_sales := Pandas.max (Pandas.groupby_sum col dff) in
  sales <- format (Float top_sales 1) ",.2f" ;;
  Ok (icon ++ " Top " ++ what ++ " (by sales) in " ++ filter_desc ++ ": **" ++ top_calc
      ++ "** (₹" ++ sales ++ ").").

(** Line 347. *)
Definition answer_total_sales (dff : DataFrame) (filter_desc : string) : result string :=
  let total_sales := Pandas.sum dff in
  sales <- format (Float total_sales 1) ",.2f" ;;
  Ok ("📊 Total sales for the " ++ filter_desc ++ ": **₹" ++ sales ++ "**.").

(** Line 349. *)
Definition answer_order_count (dff : DataFrame) (filter_desc : string) : result string :=
  let total_orders := List.length dff in
  orders <- format (Int (Z.of_nat total_orders)) "," ;;
  Ok ("🔢 Orders in the " ++ filter_desc ++ ": **" ++ orders ++ "**.").

(** Lines 351-352. *)
Definition answer_average (dff : DataFrame) (filter_desc : string) : result string :=
  if Nat.ltb 0 (List.length dff) then
    let avg_value := Float (Pandas.sum dff) (List.length dff) in
    avg <- format avg_value ",.2f" ;;
    Ok ("⚖️ Average order amount for the " ++ filter_desc ++ ": **₹" ++ avg ++ "**.")
  else Ok ("📉 Cannot calculate average for the " ++ filter_desc ++ ".").

(** Lines 354-355. *)
Definition answer_top_category (dff : DataFrame) (filter_desc : string) : result string :=
  if Pandas.has_column "Category"
     && negb (Pandas.empty (Pandas.dropna (map Category dff)))
  then answer_top "🏆" "category" Category dff filter_desc
  else Ok ("❓ Cannot determine top category for " ++ filter_desc ++ ".").

(** Lines 357-358. *)
Definition answer_top_city (dff : DataFrame) (filter_desc : string) : result string :=
  if Pandas.has_column "ship-city"
     && negb (Pandas.empty (Pandas.dropna (map ship_city dff)))
     && Nat.ltb 0 (List.length (Pandas.unique (map ship_city dff)))
  then answer_top "🏙️" "city" ship_city dff filter_desc
  else Ok ("❓ Cannot determine top city for " ++ filter_desc ++ ".").

(** Lines 360-361. *)
Definition answer_top_state (dff : DataFrame) (filter_desc : string) : result string :=
  if Pandas.has_column "ship-state"
     && negb (Pandas.empty (Pandas.dropna (map ship_state dff)))
     && Nat.ltb 0 (List.length (Pandas.unique (map ship_state dff)))
  then answer_top "📍" "state" ship_state dff filter_desc
  else Ok ("❓ Cannot determine top state for " ++ filter_desc ++ ".").

(** Lines 363-367. *)
Definition answer_status_summary (dff : DataFrame) (filter_desc : string) : result string :=
  if Pandas.has_column "Status" && negb (Pandas.empty (Pandas.dropna (map Status dff)))
  then
    let status_counts := Pandas.value_counts Status dff in
    let response_list := ["📋 Status summary for " ++ filter_desc ++ ":"] in
    lines <- for_each
               (fun sc : string * nat =>
                  count <- format (Int (Z.of_nat (snd sc))) "," ;;
                  Ok ("- **" ++ fst sc ++ ":** " ++ count ++ " orders"))
               status_counts ;;
    Ok (PyStr.join PyStr.newline (response_list ++ lines)%list)
  else Ok ("❓ No status info for " ++ filter_desc ++ ".").

(** Lines 369-374: when the pattern does not match, [response] keeps the
    value it had. *)
Definition answer_status_count (dff : DataFrame) (filter_desc msg response : string)
  : result string :=
  let match_status_count := Re.search re_status_count msg in
  match match_status_count with
  | Some m =>
      if Pandas.has_column "Status" then
        let status_query := PyStr.strip (Re.group 1 m) in
        let count := List.length (Pandas.where_contains Status status_query dff) in
        found <- format (Int (Z.of_nat count)) "," ;;
        Ok ("🔢 Found **" ++ found ++ "** orders with status containing '" ++ status_query
            ++ "' in " ++ filter_desc ++ ".")
      else Ok response
  | None => Ok response
  end.

Definition greeting_reply (filter_desc : string) : string :=
  "👋 Hello! I can analyze the " ++ filter_desc ++ ". What would you like to know?".

Definition farewell_reply : string := "👍 Happy to help analyze!".

(** Lines 346-376: the chain of fixed phrases. *)
Definition answer_phrase (dff : DataFrame) (filter_desc msg response : string)
  : result string :=
  if PyStr.contains "total sales" msg || PyStr.contains "total revenue" msg then
    answer_total_sales dff filter_desc
  else if PyStr.contains "how many orders" msg || PyStr.contains "total orders" msg
          || PyStr.contains "order count" msg then
    answer_order_count dff filter_desc
  else if PyStr.contains "average amount" msg || PyStr.contains "average sales" msg then
    answer_average dff filter_desc
  else if PyStr.contains "top category" msg then answer_top_category dff filter_desc
  else if PyStr.contains "top city" msg then answer_top_city dff filter_desc
  else if PyStr.contains "top state" msg then answer_top_state dff filter_desc
  else if PyStr.contains "status summary" msg || PyStr.contains "order status" msg then
    answer_status_summary dff filter_desc
  else if PyStr.contains "count" msg
          && (PyStr.contains "orders" msg || PyStr.contains "status" msg) then
    answer_status_count dff filter_desc msg response
  else if PyStr.contains "hello" msg || PyStr.contains "hi" msg then
    Ok (greeting_reply filter_desc)
  else if PyStr.contains "bye" msg || PyStr.contains "thanks" msg then
    Ok farewell_reply
  else Ok response.

(** Lines 298-376: the body of the [try] block. *)
Definition interpret (df dff : DataFrame) (filter_desc msg response : string)
  : result string :=
  let match_specific := Re.search re_specific msg in
  let match_order := Re.search re_order msg in
  match match_specific with
  | Some m => answer_specific dff filter_desc m response
  | None =>
      match match_order with
      | Some m => answer_order df dff filter_desc m
      | None => answer_phrase dff filter_desc msg response
      end
  end.

(** [try: ... except Exception as e: ...] inside a callback. *)
Definition try_catch {A : Type} (body : result A) (handler : exn -> result A) : result A :=
  match body with
  | Ok a => Ok a
  | Raise e => handler e
  end.

Definition analyze_data_view (df : DataFrame) (n_clicks : nat) (user_message : option string)
    (selected_categories selected_states selected_statuses : selection)
  : result component :=
  if negb (asked user_message) then
    Ok (Markdown (bot_prefix ++ prompt_message))
  else
    let '(dff, filter_desc) :=
      question_dff df selected_categories selected_states selected_statuses in
    if Pandas.empty dff then
      Ok (Markdown (bot_prefix ++ no_data_message filter_desc))
    else
      let msg := PyStr.strip (PyStr.lower (text_of user_message)) in
      let response := default_response filter_desc in
      response <-
        try_catch (interpret df dff filter_desc msg response)
                  (fun e => Ok (failure_response filter_desc)) ;;
      Ok (Markdown (bot_prefix ++ response)).

(** ** The scenario of the specification *)

Definition scenario : DataFrame :=
  [mk_row (mk_date 2022 4 30) "Electronics" "Maharashtra" "Delivered" 10000 "Mumbai"
          "2022-04" "405-8078784-5731545";
   mk_row (mk_date 2022 5 2) "Books" "Delhi" "Cancelled" 5000 "Delhi"
          "2022-05" "171-9198151-1101146"].

(** ** Notions used to state the properties *)

(** [l1] is obtained from [l2] by deleting elements, the others keeping
    their relative order. *)
Inductive subsequence {A : Type} : list A -> list A -> Prop :=
| subsequence_nil : subsequence [] []
| subsequence_skip x l1 l2 : subsequence l1 l2 -> subsequence l1 (x :: l2)
| subsequence_keep x l1 l2 : subsequence l1 l2 -> subsequence (x :: l1) (x :: l2).

(** The inclusion condition of the filter engine, as the specification
    words it: on each dimension the selected set is empty or holds the
    record's value. *)
Definition included (categories states statuses : selection) (r : row) : Prop :=
  (options categories = [] \/ In (Category r) (options categories)) /\
  (options states = [] \/ In (ship_state r) (options states)) /\
  (options statuses = [] \/ In (Status r) (options statuses)).

Definition includedb (categories states statuses : selection) (r : row) : bool :=
  (Pandas.empty (options categories) || existsb (String.eqb (Category r)) (options categories))
  && (Pandas.empty (options states) || existsb (String.eqb (ship_state r)) (options states))
  && (Pandas.empty (options statuses) || existsb (String.eqb (Status r)) (options statuses)).

(** Two strings with the same letters up to the case of the ASCII
    letters: every other byte is the same in both. *)
Inductive same_letters : string -> string -> Prop :=
| same_letters_nil : same_letters EmptyString EmptyString
| same_letters_cons c d s t :
    PyStr.lower_char c = PyStr.lower_char d ->
    same_letters s t -> same_letters (String c s) (String d t).

(** [q] is [core] between two runs of whitespace. *)
Definition padded (q core : string) : Prop :=
  exists before after,
    PyStr.all_space before = true /\ PyStr.all_space after = true /\
    q = before ++ core ++ after.

(** The two questions differ only in the case of ASCII letters and in
    leading and trailing whitespace. *)
Definition differ_in_case_and_padding (q1 q2 : string) : Prop :=
  exists core1 core2, padded q1 core1 /\ padded q2 core2 /\ same_letters core1 core2.

(** The long s (U+017F, in UTF-8): a lower-case letter whose upper-case
    form is S. *)
Definition long_s : string := "ſ".

(** Two strings with the same letters up to case, the long s counting,
    as in Unicode, as a lower-case form of S. *)
Inductive same_letters_unicode : string -> string -> Prop :=
| same_unicode_nil : same_letters_unicode EmptyString EmptyString
| same_unicode_cons c d s t :
    PyStr.lower_char c = PyStr.lower_char d ->
    same_letters_unicode s t -> same_letters_unicode (String c s) (String d t)
| same_unicode_long_s s t :
    same_letters_unicode s t -> same_letters_unicode (long_s ++ s) (String "S" t).

(** *** An ordered table of checks

    The matcher as a list of (check, handler) pairs tried in order, the
    first check that passes choosing the handler. *)

Definition rule : Type := (string -> bool) * (string -> result string).

Fixpoint first_match (rules : list rule) (otherwise : result string) (msg : string)
  : result string :=
  match rules with
  | [] => otherwise
  | (check, handler) :: rules' =>
      if check msg then handler msg else first_match rules' otherwise msg
  end.

(** One of the phrases occurs in the question. *)
Definition phrase (alternatives : list string) (msg : string) : bool :=
  existsb (fun p => PyStr.contains p msg) alternatives.

Definition on_match (r : Re.regex) (handler : Re.captures -> result string)
    (otherwise : result string) (msg : string) : result string :=
  match Re.search r msg with
  | Some m => handler m
  | None => otherwise
  end.

(** Steps 3 to 5 in the listed order; [count_check] is the check of the
    count-by-status entry. *)
Definition rules (count_check : string -> bool) (df view : DataFrame) (filter_desc : string)
  : list rule :=
  let response := default_response filter_desc in
  [ (fun msg => Re.is_match (Re.search re_specific msg),
     on_match re_specific (fun m => answer_specific view filter_desc m response) (Ok response));
    (fun msg => Re.is_match (Re.search re_order msg),
     on_match re_order (fun m => answer_order df view filter_desc m) (Ok response));
    (phrase ["total sales"; "total revenue"], fun _ => answer_total_sales view filter_desc);
    (phrase ["how many orders"; "total orders"; "order count"],
     fun _ => answer_order_count view filter_desc);
    (phrase ["average amount"; "average sales"], fun _ => answer_average view filter_desc);
    (phrase ["top category"], fun _ => answer_top_category view filter_desc);
    (phrase ["top city"], fun _ => answer_top_city view filter_desc);
    (phrase ["top state"], fun _ => answer_top_state view filter_desc);
    (phrase ["status summary"; "order status"],
     fun _ => answer_status_summary view filter_desc);
    (count_check, fun msg => answer_status_count view filter_desc msg response);
    (phrase ["hello"; "hi"], fun _ => Ok (greeting_reply filter_desc));
    (phrase ["bye"; "thanks"], fun _ => Ok farewell_reply) ].

(** Steps 1 to 6; [blank] is the check of step 1. *)
Definition ordered_dispatch (blank : option string -> bool) (count_check : string -> bool)
    (df : DataFrame) (question : option string) (categories states statuses : selection)
  : result component :=
  if blank question then Ok (Markdown (bot_prefix ++ prompt_message))
  else
    let view := filter (includedb categories states statuses) df in
    let filter_desc :=
      if selected categories || selected states || selected statuses
      then "current filtered view" else "overall data" in
    if Pandas.empty view then Ok (Markdown (bot_prefix ++ no_data_message filter_desc))
    else
      let msg := PyStr.strip (PyStr.lower (text_of question)) in
      match first_match (rules count_check df view filter_desc)
                        (Ok (default_response filter_desc)) msg with
      | Ok response => Ok (Markdown (bot_prefix ++ response))
      | Raise _ => Ok (Markdown (bot_prefix ++ failure_response filter_desc))
      end.

(** The table as the specification lists it: step 1 fires on an empty or
    blank question, the count-by-status entry on its pattern
    [count <phrase> (orders|status)]. *)
Definition blank_question (question : option string) : bool :=
  PyStr.all_space (text_of question).

Definition count_pattern (msg : string) : bool :=
  Re.is_match (Re.search re_status_count msg).

Definition listed_dispatch : DataFrame -> option string -> selection -> selection -> selection
                             -> result component :=
  ordered_dispatch blank_question count_pattern.

(** The table the callback implements: step 1 fires on a missing or
    zero-length question, the count-by-status entry as soon as the
    question holds "count" and one of "orders", "status". *)
Definition count_guard (msg : string) : bool :=
  PyStr.contains "count" msg && (PyStr.contains "orders" msg || PyStr.contains "status" msg).

Definition implemented_dispatch : DataFrame -> option string -> selection -> selection
                                  -> selection -> result component :=
  ordered_dispatch (fun question => negb (asked question)) count_guard.

(** *** Ranking as the specification words it *)

(** One more row for the group [k], groups kept in order of first
    appearance. *)
Fixpoint add_first_seen (k : string) (a : Z) (g : Pandas.series Z) : Pandas.series Z :=
  match g with
  | [] => [(k, a)]
  | (k', a') :: g' =>
      if String.eqb k k' then (k', (a' + a)%Z) :: g' else (k', a') :: add_first_seen k a g'
  end.

(** [top_n(view, key, n)]: sums per group, largest first, equal sums in
    order of first appearance in the view. *)
Definition listed_top_n (col : row -> string) (n : nat) (view : DataFrame) : Pandas.series Z :=
  firstn n (Pandas.sort_by Z.geb
              (fold_left (fun g r => add_first_seen (col r) (Amount r) g) view [])).

Fixpoint strictly_descending (s : Pandas.series Z) : bool :=
  match s with
  | x :: (y :: _) as s' => (snd y <? snd x)%Z && strictly_descending s'
  | _ => true
  end.

Fixpoint ascending (s : Pandas.series Z) : bool :=
  match s with
  | x :: (y :: _) as s' => (snd x <=? snd y)%Z && ascending s'
  | _ => true
  end.

(** A view with two categories of equal sales, "B" met first. *)
Definition tied : DataFrame :=
  [mk_row (mk_date 2022 4 30) "B" "Delhi" "Shipped" 5000 "Delhi" "2022-04" "1";
   mk_row (mk_date 2022 4 30) "A" "Delhi" "Shipped" 5000 "Delhi" "2022-04" "2"].

(** Some row of [d] carries the order id. *)
Definition has_order (order_id : string) (d : DataFrame) : Prop :=
  exists r, In r d /\ Order_ID r = order_id.

(** The value a grouped series holds for a label. *)
Fixpoint value_of (k : string) (g : Pandas.series Z) : option Z :=
  match g with
  | [] => None
  | (k', v) :: g' => if String.eqb k k' then Some v else value_of k g'
  end.

(** The labels come in strictly increasing order. *)
Definition label_lt (a b : string) : Prop := String.compare a b = Lt.

Definition sorted_labels (g : Pandas.series Z) : Prop :=
  StronglySorted label_lt (map fst g).

(** ** Loading and cleaning the table (lines 14-59)

    The outcome of [pd.read_csv] is taken as given, cell by cell: a text
    cell is a string or NaN, and the Date and Amount cells carry what
    [pd.to_datetime(..., errors="coerce")] and
    [pd.to_numeric(..., errors="coerce")] make of them. *)

Record raw_row : Type := mk_raw {
  raw_Date : option date;
  raw_Category : option string;
  raw_ship_state : option string;
  raw_Status : option string;
  raw_Amount : option Z;
  raw_ship_city : option string;
  raw_Order_ID : option string
}.

(** The frame [read_csv] returns: its column names and its rows (a cell
    of a column that is not in [raw_columns] is never read). *)
Record raw_table : Type := mk_table {
  raw_columns : list string;
  raw_rows : list raw_row
}.

(** What the program finds at [CSV_FILE]. *)
Inductive csv_file : Type :=
| NotFound
| Unreadable
| Parsed (t : raw_table).

Inductive load_error : Type :=
| KeyError (column : string)
| ReadError.

(** [cell.astype(str)] on a cell that holds text leaves it as it is.  On
    a missing cell the result depends on the pandas at hand (the text
    "nan" under the object dtype, as here; still missing under the string
    dtype): no statement below is about a missing text cell. *)
Definition astype_str (cell : option string) : string :=
  match cell with
  | Some s => s
  | None => "nan"
  end.

(** [d.to_period("M").astype(str)] *)
Definition to_period_M (d : date) : string := pad 4 (year d) ++ "-" ++ pad 2 (month d).

(** Lines 38-53, for one cell of the column [col], one of the five
    [expected_cols] (a column of another name would be left as it is). *)
Definition clean_cell (columns : list string) (col : string) (cell : option string) : string :=
  if negb (existsb (String.eqb col) columns) then "Unknown"
  else if existsb (String.eqb col) ["ship-state"; "ship-city"]
  then PyStr.title (PyStr.strip (astype_str cell))
  else if existsb (String.eqb col) ["Category"; "Status"]
  then PyStr.strip (astype_str cell)
  else if String.eqb col "Order ID" then PyStr.strip (astype_str cell)
  else astype_str cell.

(** Lines 26-53, for one row: [None] when a [dropna] removes it. *)
Definition clean_row (columns : list string) (r : raw_row) : option row :=
  match raw_Date r with
  | None => None
  | Some d =>
      let month := to_period_M d in
      match raw_Amount r with
      | None => None
      | Some a =>
          Some (mk_row d
                       (clean_cell columns "Category" (raw_Category r))
                       (clean_cell columns "ship-state" (raw_ship_state r))
                       (clean_cell columns "Status" (raw_Status r))
                       a
                       (clean_cell columns "ship-city" (raw_ship_city r))
                       month
                       (clean_cell columns "Order ID" (raw_Order_ID r)))
      end
  end.

Fixpoint keep_cleaned (columns : list string) (rows : list raw_row) : DataFrame :=
  match rows with
  | [] => []
  | r :: rows' =>
      match clean_row columns r with
      | Some c => c :: keep_cleaned columns rows'
      | None => keep_cleaned columns rows'
      end
  end.

(** [df[col]] on the frame just read. *)
Definition getitem (t : raw_table) (col : string) : load_error + unit :=
  if existsb (String.eqb col) (raw_columns t) then inr tt else inl (KeyError col).

(** Lines 22-53: the body of the [try] block. *)
Definition process (f : csv_file) : load_error + DataFrame :=
  match f with
  | Parsed t =>
      match getitem t "Date" with
      | inl e => inl e
      | inr _ =>
          match getitem t "Amount" with
          | inl e => inl e
          | inr _ => inr (keep_cleaned (raw_columns t) (raw_rows t))
          end
      end
  | _ => inl ReadError
  end.

(** Lines 14-59: the table [df] the callbacks work on. *)
Definition load (f : csv_file) : DataFrame :=
  match f with
  | NotFound => []
  | _ =>
      match process f with
      | inr df => df
      | inl _ => []
      end
  end.

(** ** The dropdowns of the layout (lines 107, 117, 127) *)

(** [{"label": c, "value": c}] *)
Record dropdown_option : Type := mk_option { label : string; value : string }.

Fixpoint insert_sorted_string (x : string) (l : list string) : list string :=
  match l with
  | [] => [x]
  | y :: l' => if String.leb x y then x :: l else y :: insert_sorted_string x l'
  end.

(** [sorted(l)] *)
Definition sorted (l : list string) : list string := fold_right insert_sorted_string [] l.

Definition category_options (df : DataFrame) : list dropdown_option :=
  map (fun c => mk_option c c) (sorted (Pandas.unique (Pandas.dropna (map Category df)))).

Definition state_options (df : DataFrame) : list dropdown_option :=
  map (fun s => mk_option s s) (sorted (Pandas.unique (Pandas.dropna (map ship_state df)))).

Definition status_options (df : DataFrame) : list dropdown_option :=
  map (fun s => mk_option s s) (Pandas.unique (Pandas.dropna (map Status df))).

(** Choosing every option of a dropdown. *)
Definition select_all (options : list dropdown_option) : selection :=
  Some (map value options).

(** ** Further notions used to state properties *)

Fixpoint increasing (l : list string) : bool :=
  match l with
  | x :: (y :: _) as l' => String.leb x y && increasing l'
  | _ => true
  end.

(** Every character of the string satisfies [p]. *)
Fixpoint every (p : ascii -> bool) (s : string) : bool :=
  match s with
  | EmptyString => true
  | String c s' => p c && every p s'
  end.

Definition no_upper (s : string) : bool := every (fun c => negb (PyStr.is_upper c)) s.

(** The sum of the values of a series. *)
Definition total_of (s : Pandas.series Z) : Z := fold_right (fun e acc => (snd e + acc)%Z) 0%Z s.

Definition count_of (s : Pandas.series nat) : nat := fold_right (fun e acc => snd e + acc) 0 s.

Fixpoint non_increasing (s : Pandas.series nat) : bool :=
  match s with
  | x :: (y :: _) as s' => Nat.leb (snd y) (snd x) && non_increasing s'
  | _ => true
  end.

(** The entity of an entity-metric question names a city, a state or
    (as a pattern) a category of the view. *)
Definition entity_known (dff : DataFrame) (m : Re.captures) : bool :=
  let entity := PyStr.strip (Re.group 2 m) in
  let entity_title := PyStr.title entity in
  Pandas.member entity_title (Pandas.unique (map ship_city dff))
  || Pandas.member entity_title (Pandas.unique (map ship_state dff))
  || existsb (Pandas.str_contains entity) (map Category dff).

(** The text is made of ASCII characters. *)
Definition ascii_text (s : string) : bool := every (fun c => Nat.ltb (PyStr.code c) 128) s.

(** The cell of the column [col] holds text (or the file has no such
    column, and the loader fills it in). *)
Definition holds_text (columns : list string) (col : string) (cell : option string) : bool :=
  negb (existsb (String.eqb col) columns) || PyFormat.isSome cell.

Definition holds_ascii (columns : list string) (col : string) (cell : option string) : bool :=
  negb (existsb (String.eqb col) columns)
  || match cell with
     | Some s => ascii_text s
     | None => false
     end.

(** A table with one order, whose id holds upper-case letters. *)
Definition lettered_orders : DataFrame :=
  [mk_row (mk_date 2022 4 30) "Books" "Delhi" "Shipped" 5000 "Delhi" "2022-04" "AB-1"].

Definition raw_scenario : raw_table :=
  mk_table ["Date"; "Category"; "ship-state"; "Status"; "Amount"; "ship-city"; "Order ID"]
    [mk_raw (Some (mk_date 2022 4 30)) (Some "Electronics ") (Some "MAHARASHTRA")
            (Some "Delivered") (Some 10000%Z) (Some " mumbai") (Some "405-8078784-5731545");
     mk_raw None (Some "Toys") (Some "Goa") (Some "Shipped") (Some 700%Z) (Some "Panaji")
            (Some "111-1111111-1111111");
     mk_raw (Some (mk_date 2022 5 2)) (Some "Books") (Some "delhi") (Some "Cancelled")
            (Some 5000%Z) (Some "DELHI ") (Some " 171-9198151-1101146 ");
     mk_raw (Some (mk_date 2022 5 3)) (Some "Books") (Some "delhi") (Some "Cancelled") None
            (Some "Delhi") (Some "222-2222222-2222222")].

(** What [str.title] makes of one character, given whether the character
    before it is cased. *)
Definition title_char (previous_is_cased : bool) (c : ascii) : ascii :=
  if PyStr.is_lower c then (if previous_is_cased then c else PyStr.upper_char c)
  else if PyStr.is_upper c then (if previous_is_cased then PyStr.lower_char c else c)
  else c.

(** The row survives both [dropna] calls of the loader. *)
Definition valid_raw (r : raw_row) : bool :=
  PyFormat.isSome (raw_Date r) && PyFormat.isSome (raw_Amount r).

(** The file gives no table: it is absent, cannot be read, or lacks the
    Date or the Amount column. *)
Definition unusable (f : csv_file) : Prop :=
  match f with
  | NotFound | Unreadable => True
  | Parsed t => ~ In "Date" (raw_columns t) \/ ~ In "Amount" (raw_columns t)
  end.

(** The dashboard shown when there is nothing to show. *)
Definition empty_dashboard : dashboard :=
  let empty_fig := create_empty_figure "No data for current filters" in
  mk_dashboard empty_fig empty_fig empty_fig empty_fig
    [mk_kpi "💰 Total Sales" "₹0.00"; mk_kpi "📦 Total Orders" "0";
     mk_kpi "🧾 Avg Order Value" "₹0.00"].

(** The count a series of counts holds for a label (0 when absent). *)
Fixpoint occurrences_of (k : string) (g : Pandas.series nat) : nat :=
  match g with
  | [] => 0
  | (k', n) :: g' => if String.eqb k k' then n else occurrences_of k g'
  end.

(** One line of the status summary (line 365). *)
Definition summary_line (sc : string * nat) : string :=
  "- **" ++ fst sc ++ ":** " ++ PyFormat.int_commas (Z.of_nat (snd sc)) ++ " orders".

(** A table read from a file without the "Order ID" column. *)
Definition unknown_orders : DataFrame :=
  load (Parsed (mk_table ["Date"; "Category"; "ship-state"; "Status"; "Amount"; "ship-city"]
                         (raw_rows raw_scenario))).

(** * Properties *)

(** ** Sanity checks on the scenario *)

Example lower_strip_ex : PyStr.strip (PyStr.lower "  Sales in MUMBAI  ") = "sales in mumbai".
Proof. reflexivity. Qed.

Example title_ex : PyStr.title "new delhi-3rd" = "New Delhi-3Rd".
Proof. reflexivity. Qed.

Example format_amount_ex : format (Float 10000 1) ",.2f" = Ok "100.00".
Proof. reflexivity. Qed.

Example format_mean_ex : format (Float 15000 2) ",.2f" = Ok "75.00".
Proof. reflexivity. Qed.

Example format_count_ex : format (Int 1234567) "," = Ok "1,234,567".
Proof. reflexivity. Qed.

Example format_malformed_ex :
  format (Float 10000 1) ",.2f if metric == 'sales' else ','"
  = Raise (ValueError "Invalid format specifier").
Proof. reflexivity. Qed.

Example strftime_ex : strftime (mk_date 2022 4 30) = "2022-04-30".
Proof. reflexivity. Qed.

Example total_sales_ex :
  analyze_data_view scenario 1 (Some "total sales") None None None
  = Ok (Markdown "🤖 📊 Total sales for the overall data: **₹150.00**.").
Proof. vm_compute. reflexivity. Qed.

Example top_category_ex :
  analyze_data_view scenario 1 (Some "top category") None None None
  = Ok (Markdown "🤖 🏆 Top category (by sales) in overall data: **Electronics** (₹100.00).").
Proof. vm_compute. reflexivity. Qed.

Example books_total_ex :
  analyze_data_view scenario 1 (Some "total sales") (Some ["Books"]) None None
  = Ok (Markdown "🤖 📊 Total sales for the current filtered view: **₹50.00**.").
Proof. vm_compute. reflexivity. Qed.

Example missing_order_ex :
  analyze_data_view scenario 1 (Some "details for order 999") None None None
  = Ok (Markdown "🤖 🚫 Order ID **999** not found in the dataset.").
Proof. vm_compute. reflexivity. Qed.

Example count_status_ex :
  analyze_data_view scenario 1 (Some "count delivered orders") None None None
  = Ok (Markdown "🤖 🔢 Found **1** orders with status containing 'delivered' in overall data.").
Proof. vm_compute. reflexivity. Qed.

Example dashboard_kpis_ex :
  match update_dashboard scenario None None None with
  | Ok d => map text (kpi_container d) = ["₹150.00"; "2"; "₹75.00"]
            /\ top_categories d
               = bar "📊 Top 10 Categories by Sales" [("Books", 5000%Z); ("Electronics", 10000%Z)]
  | Raise _ => False
  end.
Proof. vm_compute. split; reflexivity. Qed.

(** ** Filter engine *)

Section FilterEngine.

Variable df : DataFrame.
Variables categories states statuses : selection.

Lemma selected_options (s : selection) : selected s = negb (Pandas.empty (options s)).
Proof. destruct s as [[|x l]|]; reflexivity. Qed.

Lemma filter_twice {A : Type} (p q : A -> bool) (l : list A) :
  filter q (filter p l) = filter (fun x => p x && q x) l.
Proof.
  induction l as [|x l IH]; simpl; [reflexivity|].
  destruct (p x); simpl; [destruct (q x)|]; now rewrite IH.
Qed.

(** One filtering step of either callback. *)
Lemma step_filter (col : row -> string) (s : selection) (d : DataFrame) :
  (if selected s then Pandas.isin col (options s) d else d)
  = filter (fun r => Pandas.empty (options s) || existsb (String.eqb (col r)) (options s)) d.
Proof.
  rewrite selected_options.
  destruct (Pandas.empty (options s)); simpl.
  - induction d as [|r d IH]; simpl; [reflexivity | now rewrite <- IH].
  - reflexivity.
Qed.

Lemma dashboard_dff_filter :
  dashboard_dff df categories states statuses
  = filter (includedb categories states statuses) df.
Proof.
  unfold dashboard_dff.
  rewrite !step_filter, !filter_twice.
  apply filter_ext. intros r. unfold includedb. now rewrite andb_assoc.
Qed.

Lemma question_dff_filter :
  fst (question_dff df categories states statuses)
  = filter (includedb categories states statuses) df.
Proof.
  unfold question_dff.
  destruct (selected categories || selected states || selected statuses) eqn:Hany; simpl.
  - rewrite !step_filter, !filter_twice.
    apply filter_ext. intros r. unfold includedb. now rewrite andb_assoc.
  - apply orb_false_elim in Hany as [Hcs Ht].
    apply orb_false_elim in Hcs as [Hc Hs].
    rewrite selected_options in Hc, Hs, Ht.
    apply negb_false_iff in Hc, Hs, Ht.
    unfold includedb. rewrite Hc, Hs, Ht. simpl.
    induction df as [|r d IH]; simpl; [reflexivity | now rewrite <- IH].
Qed.

Lemma question_dff_desc :
  snd (question_dff df categories states statuses)
  = if selected categories || selected states || selected statuses
    then "current filtered view" else "overall data".
Proof.
  unfold question_dff.
  now destruct (selected categories || selected states || selected statuses).
Qed.

(** C1. The frame [update_dashboard] filters and the frame
    [analyze_data_view] re-derives from the same three dropdown values are
    the same list of rows, so charts and answers are computed over the
    same records. *)
Theorem filtered_views_agree :
  dashboard_dff df categories states statuses
  = fst (question_dff df categories states statuses).
Proof.
  transitivity (filter (includedb categories states statuses) df).
  - apply dashboard_dff_filter.
  - symmetry. apply question_dff_filter.
Qed.

Lemma existsb_eqb_In (v : string) (l : list string) :
  existsb (String.eqb v) l = true <-> In v l.
Proof.
  rewrite existsb_exists. split.
  - intros [x [Hin Heq]]. apply String.eqb_eq in Heq. now subst.
  - intros Hin. exists v. split; [assumption | apply String.eqb_refl].
Qed.

Lemma empty_nil {A : Type} (l : list A) : Pandas.empty l = true <-> l = [].
Proof. destruct l; simpl; split; congruence. Qed.

Lemma includedb_spec (r : row) :
  includedb categories states statuses r = true <-> included categories states statuses r.
Proof.
  unfold includedb, included.
  rewrite !andb_true_iff, !orb_true_iff, !existsb_eqb_In, !empty_nil.
  tauto.
Qed.

Lemma filter_subsequence {A : Type} (p : A -> bool) (l : list A) :
  subsequence (filter p l) l.
Proof.
  induction l as [|x l IH]; simpl.
  - constructor.
  - destruct (p x); now constructor.
Qed.

Lemma filter_idempotent {A : Type} (p : A -> bool) (l : list A) :
  filter p (filter p l) = filter p l.
Proof.
  rewrite filter_twice. apply filter_ext. intros x. now destruct (p x).
Qed.

End FilterEngine.

(** C4. A row is in the filtered view exactly when it is a row of the
    table and, on each dimension, the selected set is empty or holds its
    value; the view is a subsequence of the table; filtering the view
    again with the same selection changes nothing.  This holds for the
    frame of both callbacks. *)
Theorem filtered_view_membership (df : DataFrame) (categories states statuses : selection) :
  let view := dashboard_dff df categories states statuses in
  fst (question_dff df categories states statuses) = view /\
  (forall r, In r view <-> In r df /\ included categories states statuses r) /\
  subsequence view df /\
  dashboard_dff view categories states statuses = view /\
  fst (question_dff view categories states statuses) = view.
Proof.
  cbv zeta.
  rewrite question_dff_filter, !dashboard_dff_filter, question_dff_filter.
  split; [reflexivity|].
  split; [|split; [apply filter_subsequence | split; apply filter_idempotent]].
  intros r. rewrite filter_In, includedb_spec. reflexivity.
Qed.

Lemma filter_all {A : Type} (p : A -> bool) (l : list A) :
  (forall x, p x = true) -> filter p l = l.
Proof.
  intros Hp. induction l as [|x l IH]; simpl; [reflexivity|].
  now rewrite Hp, IH.
Qed.

(** C9. With nothing selected in any of the three dropdowns the view of
    either callback is the whole table, so it has as many rows. *)
Theorem empty_spec_keeps_every_row (df : DataFrame) (categories states statuses : selection) :
  selected categories = false -> selected states = false -> selected statuses = false ->
  List.length (dashboard_dff df categories states statuses) = List.length df /\
  List.length (fst (question_dff df categories states statuses)) = List.length df /\
  dashboard_dff df categories states statuses = df.
Proof.
  intros Hc Hs Ht.
  rewrite question_dff_filter, dashboard_dff_filter.
  rewrite selected_options in Hc, Hs, Ht.
  apply negb_false_iff in Hc, Hs, Ht.
  assert (Hall : filter (includedb categories states statuses) df = df).
  { apply filter_all. intros r. unfold includedb. now rewrite Hc, Hs, Ht. }
  rewrite Hall. repeat split.
Qed.

Lemma empty_spec_keeps_every_row_witness :
  selected None = false /\ selected (Some []) = false /\
  List.length (dashboard_dff scenario None (Some []) None) = List.length scenario /\
  List.length (fst (question_dff scenario None (Some []) None)) = List.length scenario /\
  dashboard_dff scenario None (Some []) None = scenario.
Proof.
  do 2 (split; [reflexivity|]).
  apply (empty_spec_keeps_every_row scenario None (Some []) None); reflexivity.
Defined.

(** ** Normalisation of the question *)

Section Normalisation.

Import PyStr.

Lemma lower_app (s t : string) : lower (s ++ t) = lower s ++ lower t.
Proof. induction s as [|c s IH]; simpl; [reflexivity | now rewrite IH]. Qed.

Lemma space_not_upper (c : ascii) : is_space c = true -> is_upper c = false.
Proof.
  unfold is_space, is_upper, between.
  rewrite orb_true_iff, !andb_true_iff, !Nat.leb_le.
  intros H. apply andb_false_iff. rewrite !Nat.leb_gt. lia.
Qed.

Lemma lower_all_space (s : string) : all_space s = true -> lower s = s.
Proof.
  induction s as [|c s IH]; simpl; [reflexivity|].
  rewrite andb_true_iff. intros [Hc Hs].
  unfold lower_char. now rewrite (space_not_upper c Hc), IH.
Qed.

Lemma lstrip_all_space (s : string) : all_space s = true -> lstrip s = EmptyString.
Proof.
  induction s as [|c s IH]; simpl; [reflexivity|].
  rewrite andb_true_iff. intros [Hc Hs]. now rewrite Hc, IH.
Qed.

Lemma lstrip_padding (before s : string) :
  all_space before = true -> lstrip (before ++ s) = lstrip s.
Proof.
  induction before as [|c b IH]; simpl; [reflexivity|].
  rewrite andb_true_iff. intros [Hc Hb]. now rewrite Hc, IH.
Qed.

Lemma rstrip_all_space (s : string) : all_space s = true -> rstrip s = EmptyString.
Proof.
  induction s as [|c s IH]; simpl; [reflexivity|].
  rewrite andb_true_iff. intros [Hc Hs]. now rewrite (IH Hs), Hc.
Qed.

Lemma rstrip_padding (s after : string) :
  all_space after = true -> rstrip (s ++ after) = rstrip s.
Proof.
  intros Ha. induction s as [|c s IH]; simpl.
  - now apply rstrip_all_space.
  - now rewrite IH.
Qed.

Lemma all_space_app (s t : string) :
  all_space (s ++ t) = all_space s && all_space t.
Proof.
  induction s as [|c s IH]; simpl; [reflexivity|].
  now rewrite IH, andb_assoc.
Qed.

(** What [lstrip] leaves of [s ++ after] when [after] is whitespace. *)
Lemma lstrip_app_padding (s after : string) :
  all_space after = true ->
  exists after', all_space after' = true /\ lstrip (s ++ after) = lstrip s ++ after'.
Proof.
  intros Ha. induction s as [|c s IH]; simpl.
  - exists EmptyString. split; [reflexivity | now apply lstrip_all_space].
  - destruct (is_space c).
    + exact IH.
    + exists after. now split.
Qed.

Lemma strip_padded (q core : string) : padded q core -> strip q = strip core.
Proof.
  intros (before & after & Hb & Ha & ->).
  unfold strip. rewrite (lstrip_padding before _ Hb).
  destruct (lstrip_app_padding core after Ha) as (after' & Ha' & ->).
  now apply rstrip_padding.
Qed.

Lemma lower_padded (q core : string) : padded q core -> padded (lower q) (lower core).
Proof.
  intros (before & after & Hb & Ha & ->).
  exists before, after. repeat split; try assumption.
  now rewrite !lower_app, (lower_all_space before Hb), (lower_all_space after Ha).
Qed.

Lemma lower_same_letters (s t : string) : same_letters s t -> lower s = lower t.
Proof. induction 1 as [|c d s t Hcd _ IH]; simpl; [reflexivity | now rewrite Hcd, IH]. Qed.

(** The normal form [user_message.lower().strip()] is the same for both. *)
Lemma normalise_invariant (q1 q2 : string) :
  differ_in_case_and_padding q1 q2 -> strip (lower q1) = strip (lower q2).
Proof.
  intros (core1 & core2 & H1 & H2 & Hsame).
  rewrite (strip_padded _ _ (lower_padded _ _ H1)).
  rewrite (strip_padded _ _ (lower_padded _ _ H2)).
  now rewrite (lower_same_letters _ _ Hsame).
Qed.

End Normalisation.

(** C10 as stated fails beyond ASCII: "thankſ" and "THANKS" differ only
    in letter case (ſ is a lower-case form of S), but [str.lower] leaves
    the ſ as it is, so the first question holds no "thanks" and gets the
    default reply while the second gets the farewell. *)
Lemma long_s_question_differs :
  PyStr.truthy "thankſ" = true /\ PyStr.truthy "THANKS" = true /\
  same_letters_unicode "thankſ" "THANKS" /\
  analyze_data_view scenario 1 (Some "thankſ") None None None
  = Ok (Markdown (bot_prefix ++ default_response "overall data")) /\
  analyze_data_view scenario 1 (Some "THANKS") None None None
  = Ok (Markdown (bot_prefix ++ farewell_reply)) /\
  analyze_data_view scenario 1 (Some "thankſ") None None None
  <> analyze_data_view scenario 1 (Some "THANKS") None None None.
Proof.
  split; [reflexivity|]. split; [reflexivity|].
  split.
  - do 5 (apply same_unicode_cons; [reflexivity|]).
    apply (same_unicode_long_s EmptyString EmptyString). constructor.
  - split; [vm_compute; reflexivity|]. split; [vm_compute; reflexivity|].
    vm_compute. discriminate.
Qed.

(** C10, amended. Two non-empty questions that differ only in the case of
    ASCII letters and in leading and trailing whitespace get the same
    answer under the same filter state. *)
Theorem answer_ignores_case_and_padding (df : DataFrame) (n_clicks : nat) (q1 q2 : string)
    (categories states statuses : selection) :
  PyStr.truthy q1 = true -> PyStr.truthy q2 = true ->
  differ_in_case_and_padding q1 q2 ->
  analyze_data_view df n_clicks (Some q1) categories states statuses
  = analyze_data_view df n_clicks (Some q2) categories states statuses.
Proof.
  intros H1 H2 Hdiff.
  unfold analyze_data_view, asked, text_of.
  rewrite H1, H2. simpl negb. cbv iota.
  now rewrite (normalise_invariant q1 q2 Hdiff).
Qed.

Lemma answer_ignores_case_and_padding_witness :
  PyStr.truthy "  Total SALES " = true /\ PyStr.truthy "total sales" = true /\
  analyze_data_view scenario 1 (Some "  Total SALES ") None None None
  = analyze_data_view scenario 1 (Some "total sales") None None None.
Proof.
  do 2 (split; [reflexivity|]).
  apply (answer_ignores_case_and_padding scenario 1 "  Total SALES " "total sales");
    [reflexivity | reflexivity |].
  exists "Total SALES", "total sales". split; [|split].
  - exists "  ", " ". repeat split.
  - exists EmptyString, EmptyString. repeat split.
  - repeat (constructor; [reflexivity|]). constructor.
Defined.

(** ** Formatting *)

Lemma format_two_decimals (a : Z) (n : nat) : format (Float a n) ",.2f" = Ok (fixed2 a n).
Proof. reflexivity. Qed.

Lemma format_thousands (n : Z) : format (Int n) "," = Ok (PyFormat.int_commas n).
Proof. reflexivity. Qed.

(** The specifier of the entity answers is rejected whatever the value. *)
Lemma format_entity_spec (v : number) :
  format v entity_spec = Raise (ValueError "Invalid format specifier").
Proof. reflexivity. Qed.

Lemma entity_answer_raises (icon kind shown metric filter_desc : string) (v : number) :
  entity_answer icon kind shown metric filter_desc v
  = Raise (ValueError "Invalid format specifier").
Proof. unfold entity_answer. now rewrite format_entity_spec. Qed.

(** ** The question callback: failures *)

(** C6. Whatever the question and the filter state, the callback returns
    a Markdown component and raises nothing; when interpreting the
    question (the body of the [try] block, steps 3 to 5) raises, the
    component is the analysis-failed message. *)
Theorem question_handler_catches (df : DataFrame) (n_clicks : nat) (q : option string)
    (categories states statuses : selection) :
  (exists answer,
     analyze_data_view df n_clicks q categories states statuses
     = Ok (Markdown (bot_prefix ++ answer))) /\
  (forall e,
     let dff := fst (question_dff df categories states statuses) in
     let filter_desc := snd (question_dff df categories states statuses) in
     asked q = true ->
     Pandas.empty dff = false ->
     interpret df dff filter_desc (PyStr.strip (PyStr.lower (text_of q)))
               (default_response filter_desc) = Raise e ->
     analyze_data_view df n_clicks q categories states statuses
     = Ok (Markdown (bot_prefix ++ failure_response filter_desc))).
Proof.
  unfold analyze_data_view.
  destruct (question_dff df categories states statuses) as [dff filter_desc].
  simpl fst; simpl snd. split.
  - destruct (asked q); simpl; [|eauto].
    destruct (Pandas.empty dff); [eauto|].
    destruct (interpret df dff filter_desc _ _); simpl; eauto.
  - intros e Hq Hdff Hraise. rewrite Hq, Hdff, Hraise. reflexivity.
Qed.

Lemma question_handler_catches_witness :
  asked (Some "orders from delhi") = true /\
  Pandas.empty (fst (question_dff scenario None None None)) = false /\
  interpret scenario scenario "overall data" "orders from delhi"
            (default_response "overall data")
  = Raise (ValueError "Invalid format specifier") /\
  analyze_data_view scenario 1 (Some "orders from delhi") None None None
  = Ok (Markdown (bot_prefix ++ failure_response "overall data")).
Proof.
  do 3 (split; [reflexivity|]).
  apply (proj2 (question_handler_catches scenario 1 (Some "orders from delhi") None None None)
               (ValueError "Invalid format specifier"));
    reflexivity.
Defined.

(** C2. On the two-record scenario with no filter, "sales in Mumbai"
    matches the entity pattern and the city Mumbai, and the answer is the
    analysis-failed message: it does not show ₹100.00.  The f-string of
    every entity answer raises, so no matched dimension is ever
    reported. *)
Theorem sales_in_mumbai_fails :
  analyze_data_view scenario 1 (Some "sales in Mumbai") None None None
  = Ok (Markdown (bot_prefix ++ failure_response "overall data")) /\
  PyStr.contains "₹100.00" (bot_prefix ++ failure_response "overall data") = false /\
  (exists m, Re.search re_specific "sales in mumbai" = Some m /\
             Re.group 1 m = "sales" /\ PyStr.title (PyStr.strip (Re.group 2 m)) = "Mumbai" /\
             Pandas.member "Mumbai" (Pandas.unique (map ship_city scenario)) = true /\
             metric_of "sales" (Pandas.where_eq ship_city "Mumbai" scenario) = Float 10000 1) /\
  (forall icon kind shown metric filter_desc v,
     entity_answer icon kind shown metric filter_desc v
     = Raise (ValueError "Invalid format specifier")).
Proof.
  split; [vm_compute; reflexivity|].
  split; [vm_compute; reflexivity|].
  split; [|exact entity_answer_raises].
  eexists. split; [vm_compute; reflexivity|].
  repeat split.
Qed.

(** ** The question callback: empty views *)

Lemma filter_nil_table (categories states statuses : selection) :
  fst (question_dff [] categories states statuses) = [].
Proof. now rewrite question_dff_filter. Qed.

(** C8. For every question asked (the text area is not empty, so that
    the callback gets past its first check and re-derives the view),
    when the re-derived view is empty (as it is whenever the table is
    empty) the answer is the no-data message naming the filter
    description; and on an empty view the dashboard callback raises
    nothing and shows ₹0.00 sales, 0 orders and ₹0.00 average. *)
Theorem empty_view_no_data (df : DataFrame) (n_clicks : nat) (q : option string)
    (categories states statuses : selection) :
  Pandas.empty (fst (question_dff df categories states statuses)) = true ->
  asked q = true ->
  analyze_data_view df n_clicks q categories states statuses
  = Ok (Markdown (bot_prefix
                  ++ no_data_message (snd (question_dff df categories states statuses)))) /\
  update_dashboard df categories states statuses
  = Ok (let empty_fig := create_empty_figure "No data for current filters" in
        mk_dashboard empty_fig empty_fig empty_fig empty_fig
          [mk_kpi "💰 Total Sales" "₹0.00"; mk_kpi "📦 Total Orders" "0";
           mk_kpi "🧾 Avg Order Value" "₹0.00"]) /\
  (forall q' c s t, asked q' = true ->
     analyze_data_view [] n_clicks q' c s t
     = Ok (Markdown (bot_prefix ++ no_data_message (snd (question_dff [] c s t))))).
Proof.
  intros Hempty Hq. split; [|split].
  - unfold analyze_data_view. rewrite Hq. simpl negb. cbv iota.
    destruct (question_dff df categories states statuses) as [dff filter_desc].
    simpl in Hempty |- *. now rewrite Hempty.
  - unfold update_dashboard.
    rewrite question_dff_filter in Hempty.
    rewrite dashboard_dff_filter, Hempty. reflexivity.
  - intros q' c s t Hq'. unfold analyze_data_view. rewrite Hq'. simpl negb. cbv iota.
    pose proof (filter_nil_table c s t) as Hnil.
    destruct (question_dff [] c s t) as [dff filter_desc].
    simpl in Hnil |- *. now rewrite Hnil.
Qed.

Lemma empty_view_no_data_witness :
  Pandas.empty (fst (question_dff scenario (Some ["Toys"]) None None)) = true /\
  asked (Some "total sales") = true /\
  analyze_data_view scenario 1 (Some "total sales") (Some ["Toys"]) None None
  = Ok (Markdown (bot_prefix ++ no_data_message "current filtered view")) /\
  update_dashboard scenario (Some ["Toys"]) None None
  = Ok (let empty_fig := create_empty_figure "No data for current filters" in
        mk_dashboard empty_fig empty_fig empty_fig empty_fig
          [mk_kpi "💰 Total Sales" "₹0.00"; mk_kpi "📦 Total Orders" "0";
           mk_kpi "🧾 Avg Order Value" "₹0.00"]).
Proof.
  do 2 (split; [reflexivity|]).
  destruct (empty_view_no_data scenario 1 (Some "total sales") (Some ["Toys"]) None None
              eq_refl eq_refl) as (Hanswer & Hboard & _).
  split; [exact Hanswer | exact Hboard].
Defined.

(** ** Order lookup *)

Lemma where_eq_has_order (order_id : string) (d : DataFrame) :
  has_order order_id d <-> Pandas.where_eq Order_ID order_id d <> [].
Proof.
  unfold has_order, Pandas.where_eq. split.
  - intros (r & Hin & Hid) Hnil.
    assert (Hr : In r (filter (fun r => String.eqb (Order_ID r) order_id) d)).
    { apply filter_In. split; [assumption | now apply String.eqb_eq]. }
    rewrite Hnil in Hr. destruct Hr.
  - intros Hne.
    destruct (filter (fun r => String.eqb (Order_ID r) order_id) d) as [|r rest] eqn:Hf;
      [congruence|].
    exists r.
    assert (Hr : In r (filter (fun r => String.eqb (Order_ID r) order_id) d))
      by (rewrite Hf; now left).
    apply filter_In in Hr as [Hin Hid]. split; [assumption | now apply String.eqb_eq].
Qed.

Lemma details_message_ok (order_id filter_desc : string) (r : row) :
  exists rest,
    details_message order_id filter_desc r
    = Ok ("📋 Details for Order ID **" ++ rest).
Proof.
  unfold details_message. rewrite format_two_decimals.
  eexists. unfold PyStr.join. simpl. reflexivity.
Qed.

(** The messages of the three cases never coincide. *)
Lemma lookup_messages_distinct (id1 id2 id3 d1 d2 : string) (r : row) :
  excluded_message id2 d2 <> not_found_message id3 /\
  status_message id1 d1 r <> excluded_message id2 d2 /\
  status_message id1 d1 r <> not_found_message id3 /\
  (forall a, details_message id1 d1 r = Ok a ->
             a <> excluded_message id2 d2 /\ a <> not_found_message id3).
Proof.
  split; [intros H; simpl in H; discriminate H|].
  split; [intros H; simpl in H; discriminate H|].
  split; [intros H; simpl in H; discriminate H|].
  intros a Ha.
  destruct (details_message_ok id1 d1 r) as [rest Hd].
  rewrite Hd in Ha. injection Ha as <-.
  split; intros H; simpl in H; discriminate H.
Qed.

Lemma view_order_in_table (df : DataFrame) (categories states statuses : selection)
    (order_id : string) :
  has_order order_id (fst (question_dff df categories states statuses)) ->
  has_order order_id df.
Proof.
  rewrite question_dff_filter. intros (r & Hin & Hid).
  exists r. apply filter_In in Hin as [Hin _]. now split.
Qed.

(** X17. The lookup on the id the code works with, the capture of the
    lower-cased question.  When the question reaches the order pattern
    over a non-empty view, the answer falls in exactly one of three
    cases: that id is in the view (its status alone for the action
    "status", the detail listing otherwise, both for the first matching
    row); it is absent from the view but present in the table (excluded
    by the filters); it is absent from the table (not found).  The
    messages of the three cases are pairwise different. *)
Lemma order_lookup_three_cases (df : DataFrame) (n_clicks : nat) (q : option string)
    (categories states statuses : selection) (m : Re.captures) :
  let dff := fst (question_dff df categories states statuses) in
  let filter_desc := snd (question_dff df categories states statuses) in
  let msg := PyStr.strip (PyStr.lower (text_of q)) in
  let action := Re.group 1 m in
  let order_id := PyStr.strip (Re.group 2 m) in
  asked q = true ->
  Pandas.empty dff = false ->
  Re.search re_specific msg = None ->
  Re.search re_order msg = Some m ->
  exists answer,
    analyze_data_view df n_clicks q categories states statuses
    = Ok (Markdown (bot_prefix ++ answer)) /\
    (has_order order_id dff ->
     exists r rest,
       Pandas.where_eq Order_ID order_id dff = r :: rest /\
       if String.eqb action "status"
       then answer = status_message order_id filter_desc r
       else details_message order_id filter_desc r = Ok answer) /\
    (~ has_order order_id dff -> has_order order_id df ->
     answer = excluded_message order_id filter_desc) /\
    (~ has_order order_id df -> answer = not_found_message order_id) /\
    (has_order order_id dff -> has_order order_id df) /\
    (forall r,
       excluded_message order_id filter_desc <> not_found_message order_id /\
       status_message order_id filter_desc r <> excluded_message order_id filter_desc /\
       status_message order_id filter_desc r <> not_found_message order_id /\
       (forall a, details_message order_id filter_desc r = Ok a ->
                  a <> excluded_message order_id filter_desc /\
                  a <> not_found_message order_id)).
Proof.
  intros dff filter_desc msg action order_id Hq Hdff Hspecific Horder.
  assert (Hsub : has_order order_id dff -> has_order order_id df)
    by apply view_order_in_table.
  assert (Hrun :
    analyze_data_view df n_clicks q categories states statuses
    = response <- try_catch (answer_order df dff filter_desc m)
                            (fun _ => Ok (failure_response filter_desc)) ;;
      Ok (Markdown (bot_prefix ++ response))).
  { unfold analyze_data_view. rewrite Hq. simpl negb. cbv iota.
    subst dff filter_desc msg.
    destruct (question_dff df categories states statuses) as [d fd].
    simpl in *. rewrite Hdff. unfold interpret. now rewrite Hspecific, Horder. }
  rewrite Hrun. unfold answer_order. fold action order_id. simpl negb. cbv iota.
  pose proof (where_eq_has_order order_id dff) as Hview.
  pose proof (where_eq_has_order order_id df) as Htable.
  destruct (Pandas.where_eq Order_ID order_id dff) as [|r rest] eqn:Hlook.
  - destruct (Pandas.where_eq Order_ID order_id df) as [|r' rest'] eqn:Horig; simpl.
    + exists (not_found_message order_id). split; [reflexivity|].
      split; [intros H; apply Hview in H; congruence|].
      split; [intros _ H; apply Htable in H; congruence|].
      split; [reflexivity|]. split; [assumption|].
      intros r. apply lookup_messages_distinct.
    + exists (excluded_message order_id filter_desc). split; [reflexivity|].
      split; [intros H; apply Hview in H; congruence|].
      split; [reflexivity|].
      split; [intros H; exfalso; apply H, Htable; discriminate|].
      split; [assumption|].
      intros r. apply lookup_messages_distinct.
  - assert (Hin : has_order order_id dff) by (apply Hview; discriminate).
    destruct (String.eqb action "status") eqn:Haction.
    + exists (status_message order_id filter_desc r). simpl. split; [reflexivity|].
      split; [intros _; exists r, rest; split; [reflexivity | assumption || reflexivity]|].
      split; [intros H; contradiction|].
      split; [intros H; exfalso; apply H, Hsub, Hin|].
      split; [assumption|].
      intros r0. apply lookup_messages_distinct.
    + destruct (details_message_ok order_id filter_desc r) as [text Htext].
      exists ("📋 Details for Order ID **" ++ text). rewrite Htext. simpl.
      split; [reflexivity|].
      split; [intros _; exists r, rest; split; [reflexivity | assumption || reflexivity]|].
      split; [intros H; contradiction|].
      split; [intros H; exfalso; apply H, Hsub, Hin|].
      split; [assumption|].
      intros r0. apply lookup_messages_distinct.
Qed.

Lemma order_lookup_three_cases_witness :
  asked (Some "Details for order 171-9198151-1101146") = true /\
  Pandas.empty (fst (question_dff scenario (Some ["Electronics"]) None None)) = false /\
  Re.search re_specific "details for order 171-9198151-1101146" = None /\
  Re.search re_order "details for order 171-9198151-1101146"
  = Some [(1, "details"); (2, "171-9198151-1101146")] /\
  analyze_data_view scenario 1 (Some "Details for order 171-9198151-1101146")
                    (Some ["Electronics"]) None None
  = Ok (Markdown (bot_prefix
                  ++ excluded_message "171-9198151-1101146" "current filtered view")).
Proof.
  do 4 (split; [reflexivity|]).
  destruct (order_lookup_three_cases scenario 1
              (Some "Details for order 171-9198151-1101146") (Some ["Electronics"]) None None
              [(1, "details"); (2, "171-9198151-1101146")]
              eq_refl eq_refl eq_refl eq_refl)
    as (answer & Hanswer & _ & Hexcluded & _).
  rewrite Hanswer. do 3 f_equal.
  apply Hexcluded.
  - intros (r & Hin & Hid). vm_compute in Hin. destruct Hin as [<- | []]. discriminate Hid.
  - exists (mk_row (mk_date 2022 5 2) "Books" "Delhi" "Cancelled" 5000 "Delhi"
                   "2022-05" "171-9198151-1101146").
    split; [right; left; reflexivity | reflexivity].
Defined.

(** C5. The order id is taken from the lower-cased question (line 294)
    and then compared exactly with the ids of the table (line 327),
    whose case the loader keeps.  An order whose id holds an upper-case
    letter is therefore answered "not found" although it is in the view:
    so the order AB-1, and so every order of a table loaded from a file
    without the Order ID column, where each id is "Unknown". *)
Theorem cased_order_id_not_found :
  (has_order "AB-1" (fst (question_dff lettered_orders None None None)) /\
   analyze_data_view lettered_orders 1 (Some "details for order AB-1") None None None
   = Ok (Markdown (bot_prefix ++ not_found_message "ab-1")) /\
   analyze_data_view lettered_orders 1 (Some "status of order AB-1") None None None
   = Ok (Markdown (bot_prefix ++ not_found_message "ab-1"))) /\
  (has_order "Unknown" (fst (question_dff unknown_orders None None None)) /\
   analyze_data_view unknown_orders 1 (Some "details for order Unknown") None None None
   = Ok (Markdown (bot_prefix ++ not_found_message "unknown"))).
Proof.
  split; split.
  - eexists. split; [left; reflexivity | reflexivity].
  - split; vm_compute; reflexivity.
  - eexists. split; [left; reflexivity | reflexivity].
  - vm_compute. reflexivity.
Qed.

(** ** Order of the checks *)

(** The body of the [try] block is the table read top to bottom. *)
Lemma interpret_first_match (df dff : DataFrame) (filter_desc msg : string) :
  interpret df dff filter_desc msg (default_response filter_desc)
  = first_match (rules count_guard df dff filter_desc)
                (Ok (default_response filter_desc)) msg.
Proof.
  unfold interpret, rules, first_match, on_match.
  destruct (Re.search re_specific msg) as [m|]; simpl; [reflexivity|].
  destruct (Re.search re_order msg) as [m|]; simpl; [reflexivity|].
  unfold answer_phrase, phrase, count_guard. simpl.
  rewrite !orb_false_r, !orb_assoc.
  reflexivity.
Qed.

(** C3 as stated fails: "hi orders count" matches no listed check before
    the greeting, yet the callback answers with the default message; and
    a question made of blanks is not answered by the prompt. *)
Lemma listed_order_differs :
  analyze_data_view scenario 1 (Some "hi orders count") None None None
  <> listed_dispatch scenario (Some "hi orders count") None None None /\
  analyze_data_view scenario 1 (Some "   ") None None None
  <> listed_dispatch scenario (Some "   ") None None None.
Proof.
  split; vm_compute; discriminate.
Qed.

(** C3, amended. The callback is the ordered table with first match
    winning: (1) missing or zero-length question, the prompt; (2) empty
    view, the no-data message; (3) the entity-metric pattern; (4) the
    order-lookup pattern; (5) the fixed phrases in the listed order, the
    count-by-status entry being taken as soon as the question holds
    "count" and one of "orders", "status" (answering the default message
    when its pattern does not match); (6) the default message.  A handler
    of steps 3 to 5 that raises gives the analysis-failed message. *)
Theorem callback_is_ordered_table (df : DataFrame) (n_clicks : nat) (q : option string)
    (categories states statuses : selection) :
  analyze_data_view df n_clicks q categories states statuses
  = implemented_dispatch df q categories states statuses.
Proof.
  unfold analyze_data_view, implemented_dispatch, ordered_dispatch.
  destruct (asked q); simpl negb; cbv iota; [|reflexivity].
  rewrite <- question_dff_filter, <- (question_dff_desc df).
  destruct (question_dff df categories states statuses) as [dff filter_desc].
  simpl fst; simpl snd.
  destruct (Pandas.empty dff); [reflexivity|].
  rewrite interpret_first_match.
  destruct (first_match _ _ _); reflexivity.
Qed.

(** ** Ranking *)

Section Sorting.

Context {V : Type} (le : V -> V -> bool).
Hypothesis le_total : forall a b, le a b = true \/ le b a = true.
Hypothesis le_trans : forall a b c, le a b = true -> le b c = true -> le a c = true.

Let ordered (x y : string * V) : Prop := le (snd x) (snd y) = true.

Lemma insert_permutation (x : string * V) (s : Pandas.series V) :
  Permutation (x :: s) (Pandas.insert le x s).
Proof.
  induction s as [|y s IH]; simpl; [reflexivity|].
  destruct (le (snd x) (snd y)); [reflexivity|].
  rewrite perm_swap. now constructor.
Qed.

Lemma sort_by_permutation (s : Pandas.series V) : Permutation s (Pandas.sort_by le s).
Proof.
  induction s as [|x s IH]; simpl; [reflexivity|].
  rewrite <- insert_permutation. now constructor.
Qed.

Lemma insert_sorted (x : string * V) (s : Pandas.series V) :
  StronglySorted ordered s -> StronglySorted ordered (Pandas.insert le x s).
Proof.
  induction 1 as [|y s Hs IH Hy]; simpl.
  - repeat constructor.
  - destruct (le (snd x) (snd y)) eqn:Hxy.
    + constructor; [now constructor|].
      constructor; [exact Hxy|].
      eapply Forall_impl; [|exact Hy].
      intros z Hyz. unfold ordered in *. eauto.
    + constructor; [exact IH|].
      eapply Permutation_Forall; [apply insert_permutation|].
      constructor; [|exact Hy].
      unfold ordered. destruct (le_total (snd x) (snd y)); congruence.
Qed.

Lemma sort_by_sorted (s : Pandas.series V) : StronglySorted ordered (Pandas.sort_by le s).
Proof.
  induction s as [|x s IH]; simpl; [constructor | now apply insert_sorted].
Qed.

End Sorting.

Lemma sorted_app_inv {A : Type} (R : A -> A -> Prop) (l1 l2 : list A) :
  StronglySorted R (l1 ++ l2)%list ->
  forall x y, In x l1 -> In y l2 -> R x y.
Proof.
  induction l1 as [|a l1 IH]; simpl; intros Hs x y Hx Hy; [contradiction|].
  apply StronglySorted_inv in Hs as [Hs Ha].
  destruct Hx as [<- | Hx].
  - rewrite Forall_forall in Ha. apply Ha, in_or_app. now right.
  - now apply IH.
Qed.

Lemma geb_total (a b : Z) : (a >=? b)%Z = true \/ (b >=? a)%Z = true.
Proof. rewrite !Z.geb_le. lia. Qed.

Lemma geb_trans (a b c : Z) :
  (a >=? b)%Z = true -> (b >=? c)%Z = true -> (a >=? c)%Z = true.
Proof. rewrite !Z.geb_le. lia. Qed.

Lemma leb_total (a b : Z) : (a <=? b)%Z = true \/ (b <=? a)%Z = true.
Proof. rewrite !Z.leb_le. lia. Qed.

Lemma leb_trans (a b c : Z) :
  (a <=? b)%Z = true -> (b <=? c)%Z = true -> (a <=? c)%Z = true.
Proof. rewrite !Z.leb_le. lia. Qed.

Lemma nlargest_length (n : nat) (s : Pandas.series Z) :
  List.length (Pandas.nlargest n s) <= n.
Proof. unfold Pandas.nlargest. apply firstn_le_length. Qed.

(** [nlargest n s] holds [n] entries of [s] no smaller than the others. *)
Lemma nlargest_largest (n : nat) (s : Pandas.series Z) :
  exists rest,
    Permutation (Pandas.nlargest n s ++ rest)%list s /\
    forall x y, In x (Pandas.nlargest n s) -> In y rest -> (snd y <= snd x)%Z.
Proof.
  exists (skipn n (Pandas.sort_by Z.geb s)). unfold Pandas.nlargest. split.
  - rewrite firstn_skipn. symmetry. apply sort_by_permutation.
  - intros x y Hx Hy.
    pose proof (sort_by_sorted Z.geb geb_total geb_trans s) as Hs.
    rewrite <- (firstn_skipn n) in Hs.
    apply Z.geb_le. exact (sorted_app_inv _ _ _ Hs x y Hx Hy).
Qed.

Lemma sorted_ascending (s : Pandas.series Z) :
  StronglySorted (fun x y => (snd x <=? snd y)%Z = true) s -> ascending s = true.
Proof.
  induction 1 as [|x s Hs IH Hx]; [reflexivity|].
  destruct s as [|y s]; [reflexivity|].
  simpl in *. rewrite IH. apply Forall_inv in Hx. now rewrite Hx.
Qed.

Lemma sort_values_ascending (s : Pandas.series Z) : ascending (Pandas.sort_values s) = true.
Proof. apply sorted_ascending, (sort_by_sorted Z.leb leb_total leb_trans). Qed.

(** The chart series: ten largest group sums, smallest first. *)
Lemma top10_largest (col : row -> string) (dff : DataFrame) :
  exists rest,
    Permutation (top10 col dff ++ rest)%list (Pandas.groupby_sum col dff) /\
    forall x y, In x (top10 col dff) -> In y rest -> (snd y <= snd x)%Z.
Proof.
  destruct (nlargest_largest 10 (Pandas.groupby_sum col dff)) as (rest & Hperm & Hle).
  exists rest. unfold top10, Pandas.sort_values. split.
  - eapply Permutation_trans; [|exact Hperm].
    apply Permutation_app_tail. symmetry. apply sort_by_permutation.
  - intros x y Hx Hy. apply Hle; [|assumption].
    eapply Permutation_in; [symmetry; apply sort_by_permutation | exact Hx].
Qed.

Lemma top10_length (col : row -> string) (dff : DataFrame) :
  List.length (top10 col dff) <= 10.
Proof.
  unfold top10, Pandas.sort_values.
  rewrite <- (Permutation_length (sort_by_permutation Z.leb _)).
  apply nlargest_length.
Qed.

Lemma first_max_split (s : Pandas.series Z) (k : string) (v : Z) :
  Pandas.first_max s = Some (k, v) ->
  exists before after,
    s = (before ++ (k, v) :: after)%list /\
    (forall e, In e before -> (snd e < v)%Z) /\
    (forall e, In e after -> (snd e <= v)%Z).
Proof.
  revert k v. induction s as [|[k0 v0] s IH]; simpl; intros k v Hmax; [discriminate|].
  destruct (Pandas.first_max s) as [[k' v']|] eqn:Hs.
  - destruct (IH k' v' eq_refl) as (before & after & -> & Hb & Ha).
    destruct (v0 <? v')%Z eqn:Hlt; injection Hmax as <- <-.
    + apply Z.ltb_lt in Hlt.
      exists ((k0, v0) :: before), after. split; [reflexivity|]. split; [|exact Ha].
      intros e [<- | He]; [exact Hlt | now apply Hb].
    + apply Z.ltb_ge in Hlt.
      exists [], (before ++ (k', v') :: after)%list. split; [reflexivity|].
      split; [intros e []|].
      intros e He. apply in_app_or in He as [He | [<- | He]].
      * specialize (Hb e He). lia.
      * exact Hlt.
      * specialize (Ha e He). lia.
  - injection Hmax as <- <-.
    destruct s as [|[k1 v1] s]; [|simpl in Hs; destruct (Pandas.first_max s) as [[? ?]|];
                                   [destruct (v1 <? z)%Z|]; discriminate].
    exists [], []. repeat split; intros e [].
Qed.

Lemma first_max_some (s : Pandas.series Z) :
  s <> [] -> exists k v, Pandas.first_max s = Some (k, v).
Proof.
  destruct s as [|[k0 v0] s]; [congruence|]. intros _. simpl.
  destruct (Pandas.first_max s) as [[k' v']|]; [destruct (v0 <? v')%Z|]; eauto.
Qed.

Lemma label_lt_trans (a b c : string) : label_lt a b -> label_lt b c -> label_lt a c.
Proof.
  unfold label_lt. intros Hab Hbc.
  apply String_as_OT.cmp_lt in Hab, Hbc. apply String_as_OT.cmp_lt.
  eapply String_as_OT.lt_trans; eassumption.
Qed.

Lemma label_lt_neq (a b : string) : label_lt a b -> String.eqb a b = false.
Proof.
  unfold label_lt. intros Hab. apply String.eqb_neq. intros ->.
  assert (Heq : String.compare b b = Eq) by now apply String_as_OT.cmp_eq.
  congruence.
Qed.

Lemma compare_gt_lt (a b : string) : String.compare a b = Gt -> label_lt b a.
Proof.
  unfold label_lt. intros Hgt. rewrite String.compare_antisym, Hgt. reflexivity.
Qed.

Section Grouping.

Variable col : row -> string.

Let step (g : Pandas.series Z) (r : row) : Pandas.series Z :=
  Pandas.add_to_group (col r) (Amount r) g.

Let plus (acc : Z) (r : row) : Z := (acc + Amount r)%Z.

Lemma add_to_group_labels (k : string) (a : Z) (g : Pandas.series Z) (x : string) :
  In x (map fst (Pandas.add_to_group k a g)) -> x = k \/ In x (map fst g).
Proof.
  induction g as [|[k' a'] g IH]; simpl.
  - intros [<- | []]. now left.
  - destruct (String.compare k k'); simpl; intuition.
Qed.

Lemma add_to_group_sorted (k : string) (a : Z) (g : Pandas.series Z) :
  sorted_labels g -> sorted_labels (Pandas.add_to_group k a g).
Proof.
  unfold sorted_labels.
  induction g as [|[k' a'] g IH]; simpl; intros Hs.
  - repeat constructor.
  - apply StronglySorted_inv in Hs as [Hs Hk'].
    destruct (String.compare k k') eqn:Hcmp; simpl.
    + now constructor.
    + constructor; [now constructor|].
      constructor; [exact Hcmp|].
      eapply Forall_impl; [|exact Hk'].
      intros x Hx. now apply (label_lt_trans k k' x).
    + constructor; [now apply IH|].
      apply Forall_forall. intros x Hx.
      apply add_to_group_labels in Hx as [-> | Hx].
      * now apply compare_gt_lt.
      * rewrite Forall_forall in Hk'. now apply Hk'.
Qed.

Lemma value_of_below (k : string) (g : Pandas.series Z) :
  Forall (label_lt k) (map fst g) -> value_of k g = None.
Proof.
  induction g as [|[k' a'] g IH]; simpl; intros Hall; [reflexivity|].
  apply Forall_cons_iff in Hall as [Hk Hall].
  now rewrite (label_lt_neq _ _ Hk), IH.
Qed.

Lemma value_of_add (k k' : string) (a : Z) (g : Pandas.series Z) :
  sorted_labels g ->
  value_of k (Pandas.add_to_group k' a g)
  = if String.eqb k k'
    then Some (match value_of k' g with Some v => (v + a)%Z | None => a end)
    else value_of k g.
Proof.
  unfold sorted_labels.
  induction g as [|[k1 a1] g IH]; simpl; intros Hs; [reflexivity|].
  apply StronglySorted_inv in Hs as [Hs Hk1].
  destruct (String.compare k' k1) eqn:Hcmp; simpl.
  - apply String.compare_eq_iff in Hcmp as ->.
    rewrite String.eqb_refl. now destruct (String.eqb k k1).
  - rewrite (label_lt_neq k' k1 Hcmp).
    rewrite (value_of_below k' g); [reflexivity|].
    eapply Forall_impl; [|exact Hk1].
    intros x Hx. now apply (label_lt_trans k' k1 x).
  - rewrite (IH Hs).
    assert (Hne : String.eqb k' k1 = false).
    { rewrite String.eqb_sym. now apply label_lt_neq, compare_gt_lt. }
    rewrite Hne.
    destruct (String.eqb k k1) eqn:Hk; [|reflexivity].
    apply String.eqb_eq in Hk as ->.
    rewrite String.eqb_sym, Hne. reflexivity.
Qed.

Lemma in_value_of (k : string) (v : Z) (g : Pandas.series Z) :
  sorted_labels g -> (In (k, v) g <-> value_of k g = Some v).
Proof.
  unfold sorted_labels.
  induction g as [|[k1 v1] g IH]; simpl; intros Hs.
  - split; [intros [] | discriminate].
  - apply StronglySorted_inv in Hs as [Hs Hk1]. split.
    + intros [Heq | Hin].
      * injection Heq as -> ->. now rewrite String.eqb_refl.
      * assert (Hlt : label_lt k1 k).
        { rewrite Forall_forall in Hk1. apply Hk1.
          change k with (fst (k, v)). now apply in_map. }
        rewrite String.eqb_sym, (label_lt_neq _ _ Hlt). now apply IH.
    + destruct (String.eqb k k1) eqn:Hk.
      * apply String.eqb_eq in Hk as ->. intros Hv. injection Hv as ->. now left.
      * intros Hv. right. now apply IH.
Qed.

Lemma fold_groups (d : DataFrame) (g : Pandas.series Z) (k : string) :
  sorted_labels g ->
  sorted_labels (fold_left step d g) /\
  value_of k (fold_left step d g)
  = match value_of k g with
    | Some v0 => Some (fold_left plus (Pandas.where_eq col k d) v0)
    | None =>
        match Pandas.where_eq col k d with
        | [] => None
        | r :: rows => Some (fold_left plus rows (Amount r))
        end
    end.
Proof.
  revert g. induction d as [|r d IH]; simpl; intros g Hs.
  - split; [assumption | now destruct (value_of k g)].
  - destruct (IH (step g r) (add_to_group_sorted _ _ _ Hs)) as [Hsorted Hvalue].
    split; [assumption|].
    rewrite Hvalue. unfold step at 1. rewrite (value_of_add _ _ _ _ Hs).
    rewrite (String.eqb_sym (col r) k).
    destruct (String.eqb k (col r)) eqn:Hk; [|reflexivity].
    apply String.eqb_eq in Hk as <-.
    now destruct (value_of k g).
Qed.

Lemma groupby_sum_sorted (d : DataFrame) : sorted_labels (Pandas.groupby_sum col d).
Proof. apply (fold_groups d [] EmptyString). constructor. Qed.

(** The series holds one entry per value of the column, with the sum of
    the amounts of the rows having that value. *)
Lemma groupby_sum_spec (d : DataFrame) (k : string) (v : Z) :
  In (k, v) (Pandas.groupby_sum col d)
  <-> Pandas.where_eq col k d <> [] /\ v = Pandas.sum (Pandas.where_eq col k d).
Proof.
  rewrite (in_value_of k v _ (groupby_sum_sorted d)).
  unfold Pandas.groupby_sum.
  destruct (fold_groups d [] k) as [_ Hvalue]; [constructor|].
  fold step. rewrite Hvalue. simpl value_of. cbv iota.
  destruct (Pandas.where_eq col k d) as [|r rows].
  - split; [discriminate | intros [H _]; congruence].
  - unfold Pandas.sum. simpl. fold plus. split.
    + intros Hv. injection Hv as <-. split; [discriminate | reflexivity].
    + intros [_ ->]. reflexivity.
Qed.

Lemma groupby_sum_nonempty (d : DataFrame) : d <> [] -> Pandas.groupby_sum col d <> [].
Proof.
  destruct d as [|r d]; [congruence|]. intros _ Hnil.
  assert (Hin : In (col r, Pandas.sum (Pandas.where_eq col (col r) (r :: d)))
                   (Pandas.groupby_sum col (r :: d))).
  { apply groupby_sum_spec. split; [|reflexivity].
    unfold Pandas.where_eq. simpl. now rewrite String.eqb_refl. }
  rewrite Hnil in Hin. destruct Hin.
Qed.

(** The label [idxmax] returns: the smallest label among the groups whose
    sum is the largest. *)
Lemma idxmax_least_label (d : DataFrame) :
  d <> [] ->
  exists k v,
    Pandas.idxmax (Pandas.groupby_sum col d) = Ok k /\
    Pandas.max (Pandas.groupby_sum col d) = v /\
    In (k, v) (Pandas.groupby_sum col d) /\
    forall k' v', In (k', v') (Pandas.groupby_sum col d) ->
                  (v' <= v)%Z /\ (v' = v -> k' = k \/ label_lt k k').
Proof.
  intros Hd.
  destruct (first_max_some _ (groupby_sum_nonempty d Hd)) as (k & v & Hmax).
  exists k, v. unfold Pandas.idxmax, Pandas.max. rewrite Hmax.
  split; [reflexivity|]. split; [reflexivity|].
  destruct (first_max_split _ _ _ Hmax) as (before & after & Hsplit & Hb & Ha).
  pose proof (groupby_sum_sorted d) as Hsorted.
  rewrite Hsplit in *. split; [apply in_or_app; right; now left|].
  intros k' v' Hin. apply in_app_or in Hin as [Hin | [Heq | Hin]].
  - specialize (Hb _ Hin). simpl in Hb. split; lia.
  - injection Heq as <- <-. split; [lia | now left].
  - specialize (Ha _ Hin). simpl in Ha. split; [exact Ha|]. intros _. right.
    unfold sorted_labels in Hsorted. rewrite map_app in Hsorted. simpl in Hsorted.
    change (k :: map fst after) with ([k] ++ map fst after)%list in Hsorted.
    rewrite app_assoc in Hsorted.
    apply (sorted_app_inv label_lt _ _ Hsorted).
    + apply in_or_app. right. now left.
    + change k' with (fst (k', v')). now apply in_map.
Qed.

End Grouping.

(** C7 as stated fails.  The chart series runs from the smallest sum to
    the largest, not downwards; and on equal sums the answer names the
    smaller label ("A"), not the group met first in the view ("B"). *)
Lemma ranking_not_descending_first_seen :
  strictly_descending (top10 Category scenario) = false /\
  top10 Category scenario <> listed_top_n Category 10 scenario /\
  map Category tied = ["B"; "A"] /\
  map fst (listed_top_n Category 1 tied) = ["B"] /\
  Pandas.idxmax (Pandas.groupby_sum Category tied) = Ok "A" /\
  analyze_data_view tied 1 (Some "top category") None None None
  = Ok (Markdown "🤖 🏆 Top category (by sales) in overall data: **A** (₹50.00).").
Proof.
  repeat split; try (vm_compute; reflexivity).
  vm_compute. discriminate.
Qed.

(** C7, amended. Each group is ranked by the sum of the amounts of its
    rows.  The chart series has at most ten entries (and [nlargest n] at
    most [n]), holds groups whose sums are at least those of the groups
    left out, and is ordered by non-decreasing sum.  The text answers
    name a group of largest sum with that sum; among groups of equal
    largest sum it is the one with the smallest label. *)
Theorem ranking_by_group_sums (col : row -> string) (dff : DataFrame) :
  (forall k v,
     In (k, v) (Pandas.groupby_sum col dff)
     <-> Pandas.where_eq col k dff <> [] /\ v = Pandas.sum (Pandas.where_eq col k dff)) /\
  (forall n, List.length (Pandas.nlargest n (Pandas.groupby_sum col dff)) <= n) /\
  List.length (top10 col dff) <= 10 /\
  ascending (top10 col dff) = true /\
  (exists rest,
     Permutation (top10 col dff ++ rest)%list (Pandas.groupby_sum col dff) /\
     forall x y, In x (top10 col dff) -> In y rest -> (snd y <= snd x)%Z) /\
  (dff <> [] ->
   exists k v,
     Pandas.idxmax (Pandas.groupby_sum col dff) = Ok k /\
     Pandas.max (Pandas.groupby_sum col dff) = v /\
     In (k, v) (Pandas.groupby_sum col dff) /\
     forall k' v', In (k', v') (Pandas.groupby_sum col dff) ->
                   (v' <= v)%Z /\ (v' = v -> k' = k \/ label_lt k k')).
Proof.
  split; [intros k v; apply groupby_sum_spec|].
  split; [intros n; apply nlargest_length|].
  split; [apply top10_length|].
  split; [apply sort_values_ascending|].
  split; [apply top10_largest|].
  apply idxmax_least_label.
Qed.

Lemma ranking_by_group_sums_witness :
  tied <> [] /\
  exists k v,
    Pandas.idxmax (Pandas.groupby_sum Category tied) = Ok k /\
    Pandas.max (Pandas.groupby_sum Category tied) = v /\
    In (k, v) (Pandas.groupby_sum Category tied) /\
    forall k' v', In (k', v') (Pandas.groupby_sum Category tied) ->
                  (v' <= v)%Z /\ (v' = v -> k' = k \/ label_lt k k').
Proof.
  split; [discriminate|].
  apply (ranking_by_group_sums Category tied). discriminate.
Defined.

(** * Further properties of the program *)

(** ** Case mapping and stripping *)

Section CaseMapping.

Import PyStr.

Ltac by_cases c := destruct c as [[|] [|] [|] [|] [|] [|] [|] [|]]; reflexivity.

Lemma title_char_space (b : bool) (c : ascii) : is_space (title_char b c) = is_space c.
Proof. destruct b; by_cases c. Qed.

Lemma title_char_cased (b : bool) (c : ascii) : is_cased (title_char b c) = is_cased c.
Proof. destruct b; by_cases c. Qed.

Lemma title_char_idempotent (b : bool) (c : ascii) :
  title_char b (title_char b c) = title_char b c.
Proof. destruct b; by_cases c. Qed.

Lemma lower_char_not_upper (c : ascii) : is_upper (lower_char c) = false.
Proof. by_cases c. Qed.

Lemma title_from_cons (b : bool) (c : ascii) (s : string) :
  title_from b (String c s) = String (title_char b c) (title_from (is_cased c) s).
Proof.
  simpl. unfold title_char, is_cased.
  destruct (is_lower c) eqn:Hl; [now rewrite orb_true_r|].
  destruct (is_upper c); reflexivity.
Qed.

Lemma title_from_idempotent (b : bool) (s : string) :
  title_from b (title_from b s) = title_from b s.
Proof.
  revert b. induction s as [|c s IH]; intros b; [reflexivity|].
  rewrite !title_from_cons, title_char_idempotent, title_char_cased, IH. reflexivity.
Qed.

Lemma title_idempotent (s : string) : title (title s) = title s.
Proof. apply title_from_idempotent. Qed.

Lemma space_uncased (c : ascii) : is_space c = true -> is_cased c = false.
Proof. destruct c as [[|] [|] [|] [|] [|] [|] [|] [|]]; (reflexivity || discriminate). Qed.

Lemma lstrip_title (s : string) : lstrip (title s) = title (lstrip s).
Proof.
  unfold title. induction s as [|c s IH]; [reflexivity|].
  rewrite title_from_cons. simpl lstrip. rewrite title_char_space.
  destruct (is_space c) eqn:Hc.
  - now rewrite (space_uncased c Hc).
  - now rewrite title_from_cons.
Qed.

Lemma title_from_empty (b : bool) (s : string) :
  title_from b s = EmptyString <-> s = EmptyString.
Proof.
  destruct s as [|c s]; [tauto|]. rewrite title_from_cons. split; discriminate.
Qed.

Lemma rstrip_title_from (b : bool) (s : string) :
  rstrip (title_from b s) = title_from b (rstrip s).
Proof.
  revert b. induction s as [|c s IH]; intros b; [reflexivity|].
  rewrite title_from_cons. simpl rstrip. rewrite IH, title_char_space.
  destruct (rstrip s) as [|x r] eqn:Hr.
  - simpl. destruct (is_space c); [reflexivity|].
    now rewrite title_from_cons.
  - rewrite (title_from_cons b c). 
    destruct (title_from (is_cased c) (String x r)) eqn:Ht; [|reflexivity].
    apply title_from_empty in Ht. discriminate.
Qed.

Lemma strip_title (s : string) : strip (title s) = title (strip s).
Proof. unfold strip. rewrite lstrip_title. apply rstrip_title_from. Qed.

Lemma rstrip_idempotent (s : string) : rstrip (rstrip s) = rstrip s.
Proof.
  induction s as [|c s IH]; [reflexivity|]. simpl.
  destruct (rstrip s) as [|x r] eqn:Hr.
  - destruct (is_space c) eqn:Hc; [reflexivity|]. simpl. now rewrite Hc.
  - change (rstrip (String c (String x r))) with
      (match rstrip (String x r) with
       | EmptyString => if is_space c then EmptyString else String c EmptyString
       | r' => String c r'
       end).
    now rewrite IH.
Qed.

(** The string does not begin with whitespace. *)
Let clean_start (s : string) : Prop :=
  match s with
  | EmptyString => True
  | String c _ => is_space c = false
  end.

Lemma lstrip_clean_start (s : string) : clean_start (lstrip s).
Proof.
  induction s as [|c s IH]; simpl; [exact I|].
  destruct (is_space c) eqn:Hc; [exact IH | exact Hc].
Qed.

Lemma clean_start_lstrip (s : string) : clean_start s -> lstrip s = s.
Proof. destruct s as [|c s]; simpl; [reflexivity | now intros ->]. Qed.

Lemma rstrip_clean_start (s : string) : clean_start s -> clean_start (rstrip s).
Proof.
  destruct s as [|c s]; simpl; [trivial|]. intros Hc.
  destruct (rstrip s); [rewrite Hc|]; exact Hc.
Qed.

Lemma strip_idempotent (s : string) : strip (strip s) = strip s.
Proof.
  unfold strip.
  rewrite (clean_start_lstrip (rstrip (lstrip s))).
  - apply rstrip_idempotent.
  - apply rstrip_clean_start, lstrip_clean_start.
Qed.

Lemma lower_no_upper (s : string) : no_upper (lower s) = true.
Proof.
  unfold no_upper. induction s as [|c s IH]; [reflexivity|].
  cbn [lower every]. now rewrite lower_char_not_upper, IH.
Qed.

End CaseMapping.

(** ** Loading and cleaning *)

Lemma in_keep_cleaned (columns : list string) (rows : list raw_row) (r : row) :
  In r (keep_cleaned columns rows) <->
  exists raw, In raw rows /\ clean_row columns raw = Some r.
Proof.
  induction rows as [|raw rows IH]; simpl.
  - split; [intros [] | intros (x & [] & _)].
  - destruct (clean_row columns raw) as [c|] eqn:Hc; simpl; rewrite IH; split.
    + intros [<- | (x & Hx & Hr)]; [exists raw | exists x]; auto.
    + intros (x & [<- | Hx] & Hr); [left; congruence | right; eauto].
    + intros (x & Hx & Hr). eauto.
    + intros (x & [<- | Hx] & Hr); [congruence | eauto].
Qed.

Lemma in_load (f : csv_file) (r : row) :
  In r (load f) ->
  exists t raw, f = Parsed t /\ In raw (raw_rows t) /\ clean_row (raw_columns t) raw = Some r.
Proof.
  destruct f as [| |t]; simpl; try contradiction.
  unfold getitem.
  destruct (existsb (String.eqb "Date") (raw_columns t)); [|contradiction].
  destruct (existsb (String.eqb "Amount") (raw_columns t)); [|contradiction].
  intros Hin. apply in_keep_cleaned in Hin as (raw & Hraw & Hclean). eauto.
Qed.

Lemma clean_cell_titled (columns : list string) (col : string) (cell : option string) :
  col = "ship-state" \/ col = "ship-city" ->
  let c := clean_cell columns col cell in
  PyStr.strip c = c /\ PyStr.title c = c.
Proof.
  intros Hcol c. subst c. unfold clean_cell.
  destruct (existsb (String.eqb col) columns); simpl negb; cbv iota;
    [|split; reflexivity].
  assert (Hin : existsb (String.eqb col) ["ship-state"; "ship-city"] = true)
    by (destruct Hcol as [-> | ->]; reflexivity).
  rewrite Hin. split.
  - now rewrite strip_title, strip_idempotent.
  - apply title_idempotent.
Qed.

Lemma clean_cell_stripped (columns : list string) (col : string) (cell : option string) :
  col = "Category" \/ col = "Status" \/ col = "Order ID" ->
  let c := clean_cell columns col cell in
  PyStr.strip c = c.
Proof.
  intros Hcol c. subst c. unfold clean_cell.
  destruct (existsb (String.eqb col) columns); simpl negb; cbv iota; [|reflexivity].
  destruct Hcol as [-> | [-> | ->]]; simpl; apply strip_idempotent.
Qed.

(** X3. Every row of the loaded table comes from a row of the file, and
    is normalised where that row holds text: Month is the year and month
    of Date; category, status and order id are unchanged by [strip]; so
    are state and city, which are moreover unchanged by [title] when
    their text in the file is ASCII.  A column the file lacks, filled
    with "Unknown", is normalised as well. *)
Theorem loaded_rows_normalised (f : csv_file) (r : row) :
  In r (load f) ->
  Month r = to_period_M (Date r) /\
  exists t raw,
    f = Parsed t /\ In raw (raw_rows t) /\ clean_row (raw_columns t) raw = Some r /\
    let columns := raw_columns t in
    (holds_text columns "Category" (raw_Category raw) = true ->
     PyStr.strip (Category r) = Category r) /\
    (holds_text columns "Status" (raw_Status raw) = true ->
     PyStr.strip (Status r) = Status r) /\
    (holds_text columns "Order ID" (raw_Order_ID raw) = true ->
     PyStr.strip (Order_ID r) = Order_ID r) /\
    (holds_text columns "ship-state" (raw_ship_state raw) = true ->
     PyStr.strip (ship_state r) = ship_state r) /\
    (holds_text columns "ship-city" (raw_ship_city raw) = true ->
     PyStr.strip (ship_city r) = ship_city r) /\
    (holds_ascii columns "ship-state" (raw_ship_state raw) = true ->
     PyStr.title (ship_state r) = ship_state r) /\
    (holds_ascii columns "ship-city" (raw_ship_city raw) = true ->
     PyStr.title (ship_city r) = ship_city r).
Proof.
  intros Hin. apply in_load in Hin as (t & raw & Hf & Hraw & Hclean).
  pose proof Hclean as Hrow. unfold clean_row in Hrow.
  destruct (raw_Date raw) as [d|]; [|discriminate].
  destruct (raw_Amount raw) as [a|]; [|discriminate].
  injection Hrow as <-. simpl.
  split; [reflexivity|]. exists t, raw.
  split; [exact Hf|]. split; [exact Hraw|]. split; [exact Hclean|].
  split; [intros _; apply clean_cell_stripped; now left|].
  split; [intros _; apply clean_cell_stripped; right; now left|].
  split; [intros _; apply clean_cell_stripped; right; now right|].
  split; [intros _; apply clean_cell_titled; now left|].
  split; [intros _; apply clean_cell_titled; now right|].
  split; intros _; apply clean_cell_titled; [now left | now right].
Qed.

Lemma loaded_rows_normalised_witness :
  let r := mk_row (mk_date 2022 4 30) "Electronics" "Maharashtra" "Delivered" 10000
                  "Mumbai" "2022-04" "405-8078784-5731545" in
  In r (load (Parsed raw_scenario)) /\
  holds_ascii (raw_columns raw_scenario) "ship-city" (Some " mumbai") = true /\
  PyStr.strip (ship_city r) = ship_city r /\ PyStr.title (ship_city r) = ship_city r /\
  Month r = to_period_M (Date r).
Proof.
  intros r.
  assert (Hin : In r (load (Parsed raw_scenario))) by (left; reflexivity).
  split; [exact Hin|]. split; [reflexivity|].
  destruct (loaded_rows_normalised (Parsed raw_scenario) r Hin)
    as (Hmonth & t & raw & Hf & Hraw & Hclean & _ & _ & _ & _ & Hstrip & _ & Htitle).
  injection Hf as <-.
  assert (Hfirst : raw = hd raw (raw_rows raw_scenario)).
  { destruct Hraw as [<- | [<- | [<- | [<- | []]]]];
      [reflexivity | discriminate Hclean | discriminate Hclean | discriminate Hclean]. }
  rewrite Hfirst in Hstrip, Htitle.
  split; [exact (Hstrip eq_refl)|]. split; [exact (Htitle eq_refl) | exact Hmonth].
Defined.

Lemma existsb_eqb_true (v : string) (l : list string) :
  In v l -> existsb (String.eqb v) l = true.
Proof.
  intros Hin. apply existsb_exists. exists v. split; [assumption | apply String.eqb_refl].
Qed.

Lemma existsb_eqb_false (v : string) (l : list string) :
  ~ In v l -> existsb (String.eqb v) l = false.
Proof.
  intros Hnot. destruct (existsb (String.eqb v) l) eqn:He; [|reflexivity].
  exfalso. apply Hnot. apply existsb_exists in He as (x & Hx & Heq).
  apply String.eqb_eq in Heq. now subst.
Qed.

(** X2. When the file has its Date and Amount columns, the loaded table
    holds, in the order of the file, exactly the rows whose date and
    amount could be parsed, with that date and that amount. *)
Theorem load_keeps_valid_rows (t : raw_table) :
  In "Date" (raw_columns t) -> In "Amount" (raw_columns t) ->
  map (fun r => (Some (Date r), Some (Amount r))) (load (Parsed t))
  = map (fun raw => (raw_Date raw, raw_Amount raw)) (filter valid_raw (raw_rows t)) /\
  List.length (load (Parsed t)) = List.length (filter valid_raw (raw_rows t)).
Proof.
  intros Hdate Hamount.
  assert (Hload : load (Parsed t) = keep_cleaned (raw_columns t) (raw_rows t)).
  { simpl. unfold getitem.
    now rewrite (existsb_eqb_true _ _ Hdate), (existsb_eqb_true _ _ Hamount). }
  rewrite Hload. clear Hload.
  induction (raw_rows t) as [|raw rows [IHmap IHlen]]; [split; reflexivity|].
  cbn [keep_cleaned filter]. unfold clean_row.
  destruct (valid_raw raw) eqn:Hv; unfold valid_raw in Hv;
    destruct (raw_Date raw) as [d|] eqn:Hd; destruct (raw_Amount raw) as [a|] eqn:Ha;
    try discriminate Hv; try (split; assumption).
  simpl. rewrite Hd, Ha. split; [now rewrite IHmap | now rewrite IHlen].
Qed.

Lemma load_keeps_valid_rows_witness :
  In "Date" (raw_columns raw_scenario) /\ In "Amount" (raw_columns raw_scenario) /\
  List.length (load (Parsed raw_scenario)) = 2.
Proof.
  assert (Hdate : In "Date" (raw_columns raw_scenario)) by (left; reflexivity).
  assert (Hamount : In "Amount" (raw_columns raw_scenario))
    by (do 4 right; left; reflexivity).
  split; [exact Hdate|]. split; [exact Hamount|].
  rewrite (proj2 (load_keeps_valid_rows raw_scenario Hdate Hamount)). reflexivity.
Defined.

Lemma unusable_load (f : csv_file) : unusable f -> load f = [].
Proof.
  destruct f as [| |t]; simpl; [reflexivity | reflexivity|].
  unfold getitem. intros [Hdate | Hamount].
  - now rewrite (existsb_eqb_false _ _ Hdate).
  - rewrite (existsb_eqb_false _ _ Hamount).
    now destruct (existsb (String.eqb "Date") (raw_columns t)).
Qed.

Lemma no_rows_dashboard (categories states statuses : selection) :
  update_dashboard [] categories states statuses = Ok empty_dashboard.
Proof.
  unfold update_dashboard. rewrite dashboard_dff_filter. reflexivity.
Qed.

Lemma no_rows_answer (n_clicks : nat) (q : option string)
    (categories states statuses : selection) :
  asked q = true ->
  analyze_data_view [] n_clicks q categories states statuses
  = Ok (Markdown (bot_prefix
                  ++ no_data_message (snd (question_dff [] categories states statuses)))).
Proof.
  intros Hq. unfold analyze_data_view. rewrite Hq. simpl negb. cbv iota.
  pose proof (question_dff_filter [] categories states statuses) as Hnil.
  destruct (question_dff [] categories states statuses) as [dff filter_desc].
  simpl in Hnil |- *. now rewrite Hnil.
Qed.

(** X1. When the file is absent, unreadable, or lacks the Date or Amount
    column, the program still starts: the table is empty, the three
    dropdowns offer nothing, the dashboard shows the placeholder figures
    with zero KPIs, and every non-empty question is answered by the
    no-data message. *)
Theorem unusable_file_gives_empty_app (f : csv_file) :
  unusable f ->
  load f = [] /\
  category_options (load f) = [] /\ state_options (load f) = [] /\
  status_options (load f) = [] /\
  (forall categories states statuses,
     update_dashboard (load f) categories states statuses = Ok empty_dashboard) /\
  (forall n_clicks q categories states statuses,
     asked q = true ->
     analyze_data_view (load f) n_clicks q categories states statuses
     = Ok (Markdown (bot_prefix
                     ++ no_data_message
                          (snd (question_dff [] categories states statuses))))).
Proof.
  intros Hf. rewrite (unusable_load f Hf).
  repeat (split; [reflexivity|]).
  split; [apply no_rows_dashboard | apply no_rows_answer].
Qed.

Lemma unusable_file_gives_empty_app_witness :
  unusable (Parsed (mk_table ["Date"; "Category"] (raw_rows raw_scenario))) /\
  analyze_data_view (load (Parsed (mk_table ["Date"; "Category"] (raw_rows raw_scenario))))
                    1 (Some "total sales") None None None
  = Ok (Markdown (bot_prefix ++ no_data_message "overall data")).
Proof.
  assert (Hf : unusable (Parsed (mk_table ["Date"; "Category"] (raw_rows raw_scenario)))).
  { right. intros [H | [H | []]]; discriminate H. }
  split; [exact Hf|].
  apply (unusable_file_gives_empty_app _ Hf). reflexivity.
Defined.

(** ** The dropdowns *)

Lemma unique_from_in (seen l : list string) (x : string) :
  In x (Pandas.unique_from seen l) <-> In x l /\ ~ In x seen.
Proof.
  revert seen. induction l as [|y l IH]; intros seen; simpl; [tauto|].
  destruct (existsb (String.eqb y) seen) eqn:Hy.
  - apply existsb_eqb_In in Hy. rewrite IH. split.
    + intros [Hin Hnot]. auto.
    + intros [[<- | Hin] Hnot]; [contradiction | auto].
  - assert (Hy' : ~ In y seen).
    { intros Hin. apply existsb_eqb_In in Hin. congruence. }
    simpl. rewrite IH. simpl. split.
    + intros [<- | [Hin Hnot]]; [auto | split; auto].
    + intros [[<- | Hin] Hnot]; [now left|].
      destruct (String.eqb y x) eqn:Hyx.
      * apply String.eqb_eq in Hyx. now left.
      * apply String.eqb_neq in Hyx. right. split; [assumption|]. intros [? | ?]; auto.
Qed.

Lemma unique_from_nodup (seen l : list string) : NoDup (Pandas.unique_from seen l).
Proof.
  revert seen. induction l as [|y l IH]; intros seen; simpl; [constructor|].
  destruct (existsb (String.eqb y) seen); [apply IH|].
  constructor; [|apply IH].
  rewrite unique_from_in. intros [_ Hnot]. apply Hnot. now left.
Qed.

Lemma unique_in (l : list string) (x : string) : In x (Pandas.unique l) <-> In x l.
Proof. unfold Pandas.unique. rewrite unique_from_in. simpl. tauto. Qed.

Lemma insert_sorted_string_perm (x : string) (l : list string) :
  Permutation (x :: l) (insert_sorted_string x l).
Proof.
  induction l as [|y l IH]; simpl; [reflexivity|].
  destruct (String.leb x y); [reflexivity|].
  eapply perm_trans; [apply perm_swap | now constructor].
Qed.

Lemma sorted_perm (l : list string) : Permutation l (sorted l).
Proof.
  induction l as [|x l IH]; simpl; [reflexivity|].
  eapply perm_trans; [|apply insert_sorted_string_perm]. now constructor.
Qed.

Lemma insert_sorted_string_increasing (x : string) (l : list string) :
  increasing l = true -> increasing (insert_sorted_string x l) = true.
Proof.
  induction l as [|y l IH]; [reflexivity|].
  intros Hl. cbn [insert_sorted_string].
  destruct (String.leb x y) eqn:Hxy.
  - cbn [increasing]. now rewrite Hxy.
  - assert (Hyx : String.leb y x = true)
      by (destruct (String.leb_total x y); congruence).
    destruct l as [|z l].
    + cbn. now rewrite Hyx.
    + cbn [increasing] in Hl. apply andb_true_iff in Hl as [Hyz Hl].
      specialize (IH Hl). cbn [insert_sorted_string] in *.
      destruct (String.leb x z); cbn [increasing] in *.
      * now rewrite Hyx, IH.
      * now rewrite Hyz, IH.
Qed.

Lemma sorted_increasing (l : list string) : increasing (sorted l) = true.
Proof.
  induction l as [|x l IH]; [reflexivity|].
  now apply insert_sorted_string_increasing.
Qed.

Lemma filter_all_in {A : Type} (p : A -> bool) (l : list A) :
  (forall x, In x l -> p x = true) -> filter p l = l.
Proof.
  induction l as [|x l IH]; simpl; intros Hp; [reflexivity|].
  rewrite (Hp x (or_introl eq_refl)), IH; [reflexivity|].
  intros y Hy. apply Hp. now right.
Qed.

Section Dropdowns.

Variable df : DataFrame.

(** The values a sorted dropdown offers for a column. *)
Lemma sorted_unique_values (col : row -> string) (v : string) :
  In v (sorted (Pandas.unique (Pandas.dropna (map col df))))
  <-> exists r, In r df /\ col r = v.
Proof.
  unfold Pandas.dropna. split.
  - intros Hin.
    apply (Permutation_in _ (Permutation_sym (sorted_perm _))) in Hin.
    apply unique_in, in_map_iff in Hin. destruct Hin as (r & Hv & Hr). eauto.
  - intros (r & Hr & Hv). apply (Permutation_in _ (sorted_perm _)).
    apply unique_in, in_map_iff. eauto.
Qed.

Lemma option_values (l : list string) : map value (map (fun c => mk_option c c) l) = l.
Proof. induction l as [|x l IH]; simpl; [reflexivity | now rewrite IH]. Qed.

Lemma option_labels (l : list string) : map label (map (fun c => mk_option c c) l) = l.
Proof. induction l as [|x l IH]; simpl; [reflexivity | now rewrite IH]. Qed.

Lemma category_values (v : string) :
  In v (map value (category_options df)) <-> exists r, In r df /\ Category r = v.
Proof. unfold category_options. rewrite option_values. apply sorted_unique_values. Qed.

Lemma state_values (v : string) :
  In v (map value (state_options df)) <-> exists r, In r df /\ ship_state r = v.
Proof. unfold state_options. rewrite option_values. apply sorted_unique_values. Qed.

Lemma status_values (v : string) :
  In v (map value (status_options df)) <-> exists r, In r df /\ Status r = v.
Proof.
  unfold status_options, Pandas.dropna. rewrite option_values, unique_in, in_map_iff.
  split; intros (r & H1 & H2); eauto.
Qed.

(** X4. Each dropdown offers exactly the values that occur in its
    column, each once, the label being the value; the category and state
    options come in increasing order. *)
Theorem dropdown_options_enumerate :
  (forall v, In v (map value (category_options df)) <-> exists r, In r df /\ Category r = v) /\
  (forall v, In v (map value (state_options df)) <-> exists r, In r df /\ ship_state r = v) /\
  (forall v, In v (map value (status_options df)) <-> exists r, In r df /\ Status r = v) /\
  NoDup (map value (category_options df)) /\
  NoDup (map value (state_options df)) /\
  NoDup (map value (status_options df)) /\
  increasing (map value (category_options df)) = true /\
  increasing (map value (state_options df)) = true /\
  map label (category_options df) = map value (category_options df) /\
  map label (state_options df) = map value (state_options df) /\
  map label (status_options df) = map value (status_options df).
Proof.
  split; [exact category_values|].
  split; [exact state_values|].
  split; [exact status_values|].
  unfold category_options, state_options, status_options.
  rewrite !option_values, !option_labels.
  split; [eapply Permutation_NoDup; [apply sorted_perm | apply unique_from_nodup]|].
  split; [eapply Permutation_NoDup; [apply sorted_perm | apply unique_from_nodup]|].
  split; [apply unique_from_nodup|].
  split; [apply sorted_increasing|].
  split; [apply sorted_increasing|].
  repeat split.
Qed.

(** X5. On a table where no category, state or status is missing (so
    that [dropna] removes nothing from these columns), choosing all the
    options of the three dropdowns shows the whole table, in both
    callbacks; and choosing all the options of one dropdown gives the
    same view as choosing none of them, whatever the other two hold. *)
Theorem select_all_is_no_filter (categories states statuses : selection) :
  List.length (Pandas.dropna (map Category df)) = List.length df ->
  List.length (Pandas.dropna (map ship_state df)) = List.length df ->
  List.length (Pandas.dropna (map Status df)) = List.length df ->
  dashboard_dff df (select_all (category_options df)) (select_all (state_options df))
                (select_all (status_options df)) = df /\
  fst (question_dff df (select_all (category_options df)) (select_all (state_options df))
                    (select_all (status_options df))) = df /\
  dashboard_dff df (select_all (category_options df)) states statuses
  = dashboard_dff df None states statuses /\
  dashboard_dff df categories (select_all (state_options df)) statuses
  = dashboard_dff df categories None statuses /\
  dashboard_dff df categories states (select_all (status_options df))
  = dashboard_dff df categories states None.
Proof.
  intros _ _ _.
  assert (Hc : forall r, In r df -> In (Category r) (map value (category_options df)))
    by (intros r Hr; apply category_values; eauto).
  assert (Hs : forall r, In r df -> In (ship_state r) (map value (state_options df)))
    by (intros r Hr; apply state_values; eauto).
  assert (Ht : forall r, In r df -> In (Status r) (map value (status_options df)))
    by (intros r Hr; apply status_values; eauto).
  assert (Hall : filter (includedb (select_all (category_options df))
                                   (select_all (state_options df))
                                   (select_all (status_options df))) df = df).
  { apply filter_all_in. intros r Hr. unfold includedb, select_all. simpl options.
    rewrite (existsb_eqb_true _ _ (Hc r Hr)), (existsb_eqb_true _ _ (Hs r Hr)),
      (existsb_eqb_true _ _ (Ht r Hr)), !orb_true_r. reflexivity. }
  rewrite question_dff_filter, !dashboard_dff_filter.
  split; [exact Hall|]. split; [exact Hall|].
  split; [|split]; apply filter_ext_in; intros r Hr; unfold includedb, select_all;
    simpl options.
  - now rewrite (existsb_eqb_true _ _ (Hc r Hr)), orb_true_r.
  - now rewrite (existsb_eqb_true _ _ (Hs r Hr)), orb_true_r.
  - now rewrite (existsb_eqb_true _ _ (Ht r Hr)), orb_true_r.
Qed.

(** X6. An option a dropdown offers, chosen alone, never empties the
    view: the dashboard shows data and the question callback does not
    answer with the no-data message on account of it. *)
Theorem offered_option_has_rows (o : dropdown_option) :
  (In o (category_options df) ->
   Pandas.empty (dashboard_dff df (Some [value o]) None None) = false /\
   Pandas.empty (fst (question_dff df (Some [value o]) None None)) = false) /\
  (In o (state_options df) ->
   Pandas.empty (dashboard_dff df None (Some [value o]) None) = false /\
   Pandas.empty (fst (question_dff df None (Some [value o]) None)) = false) /\
  (In o (status_options df) ->
   Pandas.empty (dashboard_dff df None None (Some [value o])) = false /\
   Pandas.empty (fst (question_dff df None None (Some [value o]))) = false).
Proof.
  assert (Hne : forall c s t r, In r df -> includedb c s t r = true ->
                Pandas.empty (filter (includedb c s t) df) = false).
  { intros c s t r Hr Hinc.
    assert (Hin : In r (filter (includedb c s t) df)) by (apply filter_In; now split).
    now destruct (filter (includedb c s t) df). }
  rewrite !question_dff_filter, !dashboard_dff_filter.
  split; [|split]; intros Ho; apply (in_map value) in Ho.
  - apply category_values in Ho as (r & Hr & Hv).
    split; apply (Hne _ _ _ r Hr); unfold includedb; simpl; now rewrite Hv, String.eqb_refl.
  - apply state_values in Ho as (r & Hr & Hv).
    split; apply (Hne _ _ _ r Hr); unfold includedb; simpl; now rewrite Hv, String.eqb_refl.
  - apply status_values in Ho as (r & Hr & Hv).
    split; apply (Hne _ _ _ r Hr); unfold includedb; simpl; now rewrite Hv, String.eqb_refl.
Qed.

End Dropdowns.

Lemma select_all_is_no_filter_witness :
  List.length (Pandas.dropna (map Category scenario)) = List.length scenario /\
  List.length (Pandas.dropna (map ship_state scenario)) = List.length scenario /\
  List.length (Pandas.dropna (map Status scenario)) = List.length scenario /\
  map value (category_options scenario) = ["Books"; "Electronics"] /\
  dashboard_dff scenario (Some ["Books"; "Electronics"]) (Some ["Delhi"]) None
  = dashboard_dff scenario None (Some ["Delhi"]) None.
Proof.
  do 4 (split; [reflexivity|]).
  exact (proj1 (proj2 (proj2 (select_all_is_no_filter scenario None (Some ["Delhi"]) None
                                 eq_refl eq_refl eq_refl)))).
Defined.

Lemma offered_option_has_rows_witness :
  In (mk_option "Books" "Books") (category_options scenario) /\
  Pandas.empty (dashboard_dff scenario (Some ["Books"]) None None) = false.
Proof.
  assert (Hin : In (mk_option "Books" "Books") (category_options scenario))
    by (left; reflexivity).
  split; [exact Hin|].
  exact (proj1 (proj1 (offered_option_has_rows scenario (mk_option "Books" "Books")) Hin)).
Defined.

(** ** The dashboard *)

Lemma sort_by_nonempty {V : Type} (le : V -> V -> bool) (s : Pandas.series V) :
  s <> [] -> Pandas.sort_by le s <> [].
Proof.
  intros Hs Hnil. apply Hs.
  apply Permutation_nil. rewrite <- Hnil. symmetry. apply sort_by_permutation.
Qed.

Lemma top10_nonempty (col : row -> string) (dff : DataFrame) :
  dff <> [] -> top10 col dff <> [].
Proof.
  intros Hd. unfold top10, Pandas.sort_values, Pandas.nlargest.
  apply sort_by_nonempty.
  pose proof (sort_by_nonempty Z.geb _ (groupby_sum_nonempty col dff Hd)) as Hs.
  destruct (Pandas.sort_by Z.geb (Pandas.groupby_sum col dff)); [congruence | discriminate].
Qed.

Lemma count_of_add (k : string) (g : Pandas.series nat) :
  count_of (Pandas.add_count k g) = S (count_of g).
Proof.
  induction g as [|[k' n] g IH]; simpl; [reflexivity|].
  destruct (String.eqb k k'); simpl; [reflexivity | rewrite IH; lia].
Qed.

Lemma count_of_fold (col : row -> string) (d : DataFrame) (g : Pandas.series nat) :
  count_of (fold_left (fun g r => Pandas.add_count (col r) g) d g)
  = count_of g + List.length d.
Proof.
  revert g. induction d as [|r d IH]; intros g; simpl; [lia|].
  rewrite IH, count_of_add. lia.
Qed.

Lemma count_of_permutation (s s' : Pandas.series nat) :
  Permutation s s' -> count_of s = count_of s'.
Proof. induction 1; simpl; lia. Qed.

Lemma total_of_permutation (s s' : Pandas.series Z) :
  Permutation s s' -> total_of s = total_of s'.
Proof. induction 1; simpl; lia. Qed.

(** The slices of the status pie add up to the number of rows. *)
Lemma value_counts_total (col : row -> string) (d : DataFrame) :
  count_of (Pandas.value_counts col d) = List.length d.
Proof.
  unfold Pandas.value_counts.
  rewrite <- (count_of_permutation _ _ (sort_by_permutation _ _)).
  apply count_of_fold.
Qed.

Lemma value_counts_nonempty (col : row -> string) (d : DataFrame) :
  d <> [] -> Pandas.value_counts col d <> [].
Proof.
  intros Hd Hnil. pose proof (value_counts_total col d) as Ht.
  rewrite Hnil in Ht. destruct d; [congruence | discriminate].
Qed.

Lemma total_of_add (k : string) (a : Z) (g : Pandas.series Z) :
  total_of (Pandas.add_to_group k a g) = (total_of g + a)%Z.
Proof.
  induction g as [|[k' a'] g IH]; simpl; [lia|].
  destruct (String.compare k k'); simpl; [lia | lia | rewrite IH; lia].
Qed.

Lemma sum_from (d : DataFrame) (acc : Z) :
  fold_left (fun acc r => (acc + Amount r)%Z) d acc = (acc + Pandas.sum d)%Z.
Proof.
  unfold Pandas.sum. revert acc. induction d as [|r d IH]; intros acc; simpl; [lia|].
  rewrite IH, (IH (Amount r)). lia.
Qed.

(** The values of a grouped series add up to the sum of all amounts. *)
Lemma groupby_sum_total (col : row -> string) (d : DataFrame) :
  total_of (Pandas.groupby_sum col d) = Pandas.sum d.
Proof.
  unfold Pandas.groupby_sum.
  assert (H : forall g, total_of (fold_left (fun g r => Pandas.add_to_group (col r) (Amount r) g)
                                           d g) = (total_of g + Pandas.sum d)%Z).
  { induction d as [|r d IH]; intros g; simpl.
    - unfold Pandas.sum. simpl. lia.
    - rewrite IH, total_of_add. unfold Pandas.sum. simpl. rewrite (sum_from d (Amount r)).
      unfold Pandas.sum. lia. }
  rewrite H. simpl. lia.
Qed.

(** With at most ten groups the bars are all the groups. *)
Lemma top10_all (col : row -> string) (dff : DataFrame) :
  List.length (Pandas.groupby_sum col dff) <= 10 ->
  Permutation (top10 col dff) (Pandas.groupby_sum col dff).
Proof.
  intros Hlen. unfold top10, Pandas.sort_values, Pandas.nlargest.
  rewrite firstn_all2.
  - eapply perm_trans; symmetry; apply sort_by_permutation.
  - now rewrite <- (Permutation_length (sort_by_permutation Z.geb _)).
Qed.

(** The dashboard of a non-empty view. *)
Lemma update_dashboard_nonempty (df : DataFrame) (categories states statuses : selection) :
  let dff := dashboard_dff df categories states statuses in
  dff <> [] ->
  update_dashboard df categories states statuses
  = Ok (mk_dashboard
          (line "📈 Monthly Sales Trend" (monthly_sales dff))
          (bar "📊 Top 10 Categories by Sales" (top10 Category dff))
          (bar "📍 Top 10 Cities by Sales" (top10 ship_city dff))
          (pie "📋 Order Status Distribution" (Pandas.value_counts Status dff))
          [mk_kpi "💰 Total Sales" ("₹" ++ fixed2 (Pandas.sum dff) 1);
           mk_kpi "📦 Total Orders" (PyFormat.int_commas (Z.of_nat (List.length dff)));
           mk_kpi "🧾 Avg Order Value"
                  ("₹" ++ fixed2 (Pandas.sum dff) (List.length dff))]).
Proof.
  intros dff Hd. unfold update_dashboard. fold dff.
  pose proof (groupby_sum_nonempty Month dff Hd) as Hmonth.
  pose proof (top10_nonempty Category dff Hd) as Hcat.
  pose proof (top10_nonempty ship_city dff Hd) as Hcity.
  pose proof (value_counts_nonempty Status dff Hd) as Hstatus.
  fold (monthly_sales dff) in Hmonth.
  destruct dff as [|r d] eqn:Hdff; [congruence|]. rewrite <- Hdff in *.
  assert (He : Pandas.empty dff = false) by now rewrite Hdff.
  assert (Hl : Nat.ltb 0 (List.length dff) = true) by now rewrite Hdff.
  assert (Hz : Nat.eqb (List.length dff) 0 = false) by now rewrite Hdff.
  assert (Hcols : forall col : row -> string,
             Pandas.empty (Pandas.dropna (map col dff)) = false) by now rewrite Hdff.
  rewrite He, Hl. unfold truediv. rewrite Hz.
  cbn [bind]. rewrite !format_two_decimals, format_thousands. cbn [bind negb].
  rewrite !Hcols.
  destruct (monthly_sales dff); [congruence|].
  destruct (top10 Category dff); [congruence|].
  destruct (top10 ship_city dff); [congruence|].
  destruct (Pandas.value_counts Status dff); [congruence|].
  reflexivity.
Qed.

Lemma where_eq_nonempty (col : row -> string) (k : string) (d : DataFrame) :
  Pandas.where_eq col k d <> [] <-> exists r, In r d /\ col r = k.
Proof.
  unfold Pandas.where_eq. split.
  - intros Hne.
    destruct (filter (fun r => String.eqb (col r) k) d) as [|r rest] eqn:Hf; [congruence|].
    assert (Hr : In r (filter (fun r => String.eqb (col r) k) d)) by (rewrite Hf; now left).
    apply filter_In in Hr as [Hin Hk]. exists r. split; [assumption | now apply String.eqb_eq].
  - intros (r & Hin & Hk) Hnil.
    assert (Hr : In r (filter (fun r => String.eqb (col r) k) d)).
    { apply filter_In. split; [assumption | now apply String.eqb_eq]. }
    rewrite Hnil in Hr. destruct Hr.
Qed.

Lemma label_lt_irrefl (a : string) : ~ label_lt a a.
Proof. intros H. apply label_lt_neq in H. rewrite String.eqb_refl in H. discriminate. Qed.

Lemma sorted_labels_nodup (l : list string) : StronglySorted label_lt l -> NoDup l.
Proof.
  induction 1 as [|x l Hl IH Hx]; constructor; [|assumption].
  intros Hin. rewrite Forall_forall in Hx. exact (label_lt_irrefl x (Hx x Hin)).
Qed.

(** The groups of [groupby] are the distinct values of the column. *)
Lemma groupby_labels (col : row -> string) (d : DataFrame) :
  Permutation (map fst (Pandas.groupby_sum col d)) (Pandas.unique (map col d)).
Proof.
  apply NoDup_Permutation.
  - apply sorted_labels_nodup, groupby_sum_sorted.
  - apply unique_from_nodup.
  - intros k. rewrite unique_in, in_map_iff. split.
    + intros ([k' v] & Hk & Hin). simpl in Hk. subst k'.
      apply groupby_sum_spec in Hin as [Hne _].
      apply where_eq_nonempty in Hne as (r & Hr & Hc). apply in_map_iff. eauto.
    + intros Hin. apply in_map_iff in Hin as (r & Hc & Hr).
      exists (k, Pandas.sum (Pandas.where_eq col k d)). split; [reflexivity|].
      apply groupby_sum_spec. split; [|reflexivity].
      apply where_eq_nonempty. eauto.
Qed.

Lemma top10_total (col : row -> string) (dff : DataFrame) :
  List.length (Pandas.unique (map col dff)) <= 10 ->
  total_of (top10 col dff) = Pandas.sum dff.
Proof.
  intros Hlen. rewrite <- (groupby_sum_total col dff).
  apply total_of_permutation, top10_all.
  now rewrite <- (length_map fst), (Permutation_length (groupby_labels col dff)).
Qed.

(** X8. On a non-empty view the points of the monthly trend add up to
    the total sales that the first KPI card shows (amounts being exact
    decimals). *)
Theorem trend_adds_up_to_total_sales (df : DataFrame)
    (categories states statuses : selection) :
  let dff := dashboard_dff df categories states statuses in
  dff <> [] ->
  exists d trend,
    update_dashboard df categories states statuses = Ok d /\
    sales_trend d = line "📈 Monthly Sales Trend" trend /\
    total_of trend = Pandas.sum dff /\
    hd_error (kpi_container d)
    = Some (mk_kpi "💰 Total Sales" ("₹" ++ fixed2 (total_of trend) 1)).
Proof.
  intros dff Hd. do 2 eexists.
  split; [apply update_dashboard_nonempty; exact Hd|]. fold dff.
  split; [reflexivity|].
  split; [apply groupby_sum_total|].
  cbn [kpi_container hd_error]. unfold monthly_sales.
  now rewrite groupby_sum_total.
Qed.

Lemma trend_adds_up_to_total_sales_witness :
  dashboard_dff scenario None None None <> [] /\
  exists d trend,
    update_dashboard scenario None None None = Ok d /\
    sales_trend d = line "📈 Monthly Sales Trend" trend /\
    total_of trend = 15000%Z /\
    hd_error (kpi_container d) = Some (mk_kpi "💰 Total Sales" "₹150.00").
Proof.
  assert (Hd : dashboard_dff scenario None None None <> []) by discriminate.
  split; [exact Hd|].
  destruct (trend_adds_up_to_total_sales scenario None None None Hd)
    as (d & trend & Hboard & Htrend & Htotal & Hkpi).
  exists d, trend.
  split; [exact Hboard|]. split; [exact Htrend|].
  assert (Hsum : total_of trend = 15000%Z) by exact Htotal.
  split; [exact Hsum|]. rewrite Hkpi, Hsum. reflexivity.
Defined.

(** ** Answers on a non-empty view *)

(** The callback once the question is non-empty and the view has rows. *)
Lemma analyze_nonempty (df : DataFrame) (n_clicks : nat) (q : option string)
    (categories states statuses : selection) :
  let dff := fst (question_dff df categories states statuses) in
  let filter_desc := snd (question_dff df categories states statuses) in
  asked q = true ->
  Pandas.empty dff = false ->
  analyze_data_view df n_clicks q categories states statuses
  = Ok (Markdown
          (bot_prefix
           ++ match interpret df dff filter_desc (PyStr.strip (PyStr.lower (text_of q)))
                              (default_response filter_desc) with
              | Ok response => response
              | Raise _ => failure_response filter_desc
              end)).
Proof.
  intros dff filter_desc Hq Hdff. unfold analyze_data_view. rewrite Hq. simpl negb. cbv iota.
  subst dff filter_desc.
  destruct (question_dff df categories states statuses) as [d fd].
  simpl in *. rewrite Hdff.
  destruct (interpret df d fd _ _); reflexivity.
Qed.

Lemma phrase_pair (a b msg : string) :
  phrase [a; b] msg = PyStr.contains a msg || PyStr.contains b msg.
Proof. unfold phrase. simpl. now rewrite orb_false_r. Qed.

Lemma phrase_triple (a b c msg : string) :
  phrase [a; b; c] msg
  = PyStr.contains a msg || PyStr.contains b msg || PyStr.contains c msg.
Proof. unfold phrase. simpl. now rewrite orb_false_r, orb_assoc. Qed.

Lemma nonempty_not_empty {A : Type} (l : list A) : l <> [] <-> Pandas.empty l = false.
Proof. destruct l; simpl; split; congruence. Qed.

(** X9. On a non-empty view the questions about total sales, the number
    of orders and the average are answered with the very texts of the
    three KPI cards the dashboard shows for the same filters. *)
Theorem answers_match_kpis (df : DataFrame) (n_clicks : nat) (q : option string)
    (categories states statuses : selection) :
  let filter_desc := snd (question_dff df categories states statuses) in
  let msg := PyStr.strip (PyStr.lower (text_of q)) in
  let sales_asked := phrase ["total sales"; "total revenue"] msg in
  let orders_asked := phrase ["how many orders"; "total orders"; "order count"] msg in
  let average_asked := phrase ["average amount"; "average sales"] msg in
  asked q = true ->
  dashboard_dff df categories states statuses <> [] ->
  Re.search re_specific msg = None ->
  Re.search re_order msg = None ->
  exists d sales orders average,
    update_dashboard df categories states statuses = Ok d /\
    map text (kpi_container d) = [sales; orders; average] /\
    (sales_asked = true ->
     analyze_data_view df n_clicks q categories states statuses
     = Ok (Markdown (bot_prefix ++ "📊 Total sales for the " ++ filter_desc ++ ": **"
                     ++ sales ++ "**."))) /\
    (sales_asked = false -> orders_asked = true ->
     analyze_data_view df n_clicks q categories states statuses
     = Ok (Markdown (bot_prefix ++ "🔢 Orders in the " ++ filter_desc ++ ": **"
                     ++ orders ++ "**."))) /\
    (sales_asked = false -> orders_asked = false -> average_asked = true ->
     analyze_data_view df n_clicks q categories states statuses
     = Ok (Markdown (bot_prefix ++ "⚖️ Average order amount for the " ++ filter_desc
                     ++ ": **" ++ average ++ "**."))).
Proof.
  intros filter_desc msg sales_asked orders_asked average_asked Hq Hd Hspecific Horder.
  do 4 eexists.
  split; [apply update_dashboard_nonempty; exact Hd|].
  split; [reflexivity|].
  assert (Hrun :
    analyze_data_view df n_clicks q categories states statuses
    = Ok (Markdown
            (bot_prefix
             ++ match answer_phrase (dashboard_dff df categories states statuses)
                                    filter_desc msg (default_response filter_desc) with
                | Ok response => response
                | Raise _ => failure_response filter_desc
                end))).
  { rewrite analyze_nonempty; [|exact Hq|].
    - fold filter_desc msg. unfold interpret. rewrite Hspecific, Horder.
      now rewrite question_dff_filter, <- dashboard_dff_filter.
    - apply nonempty_not_empty.
      now rewrite question_dff_filter, <- dashboard_dff_filter. }
  rewrite Hrun. unfold answer_phrase.
  subst sales_asked orders_asked average_asked.
  rewrite !phrase_pair, phrase_triple.
  split; [|split].
  - intros ->. unfold answer_total_sales. rewrite format_two_decimals. reflexivity.
  - intros -> ->. unfold answer_order_count. rewrite format_thousands. reflexivity.
  - intros -> -> ->. unfold answer_average.
    destruct (dashboard_dff df categories states statuses) as [|r d]; [congruence|].
    cbn [List.length Nat.ltb Nat.leb]. rewrite format_two_decimals. reflexivity.
Qed.

Lemma answers_match_kpis_witness :
  asked (Some "What is the TOTAL revenue?") = true /\
  dashboard_dff scenario None None None <> [] /\
  exists d, update_dashboard scenario None None None = Ok d /\
            map text (kpi_container d) = ["₹150.00"; "2"; "₹75.00"] /\
            analyze_data_view scenario 1 (Some "What is the TOTAL revenue?") None None None
            = Ok (Markdown "🤖 📊 Total sales for the overall data: **₹150.00**.").
Proof.
  assert (Hd : dashboard_dff scenario None None None <> []) by discriminate.
  split; [reflexivity|]. split; [exact Hd|].
  destruct (answers_match_kpis scenario 1 (Some "What is the TOTAL revenue?") None None None
              eq_refl Hd eq_refl eq_refl)
    as (d & sales & orders & average & Hboard & Hkpis & Hsales & _).
  exists d. split; [exact Hboard|].
  assert (Htexts : [sales; orders; average] = ["₹150.00"; "2"; "₹75.00"]).
  { rewrite <- Hkpis. vm_compute in Hboard. injection Hboard as <-. reflexivity. }
  split; [now rewrite Hkpis|].
  injection Htexts as -> _ _. exact (Hsales eq_refl).
Defined.

(** X10. When a question matches the entity-metric pattern over a
    non-empty view, the reply is the analysis-failed message if the
    entity is a city or a state of the view or matches one of its
    categories, and the entity-not-found message otherwise: this branch
    never reports a metric. *)
Theorem entity_question_outcome (df : DataFrame) (n_clicks : nat) (q : option string)
    (categories states statuses : selection) (m : Re.captures) :
  let dff := fst (question_dff df categories states statuses) in
  let filter_desc := snd (question_dff df categories states statuses) in
  let msg := PyStr.strip (PyStr.lower (text_of q)) in
  asked q = true ->
  Pandas.empty dff = false ->
  Re.search re_specific msg = Some m ->
  analyze_data_view df n_clicks q categories states statuses
  = Ok (Markdown
          (bot_prefix
           ++ if entity_known dff m then failure_response filter_desc
              else "❓ Could not find '" ++ PyStr.strip (Re.group 2 m)
                   ++ "' as a city, state, or category in the " ++ filter_desc ++ ".")).
Proof.
  intros dff filter_desc msg Hq Hdff Hspecific.
  rewrite analyze_nonempty; [|exact Hq | exact Hdff].
  fold dff filter_desc msg. unfold interpret. rewrite Hspecific.
  unfold answer_specific, entity_known.
  change (Pandas.has_column "ship-city") with true.
  change (Pandas.has_column "ship-state") with true.
  change (Pandas.has_column "Category") with true.
  cbn [andb].
  destruct (Pandas.member _ (Pandas.unique (map ship_city dff)));
    [now rewrite entity_answer_raises|].
  destruct (Pandas.member _ (Pandas.unique (map ship_state dff)));
    [now rewrite entity_answer_raises|].
  destruct (existsb _ (map Category dff)); [now rewrite entity_answer_raises|].
  reflexivity.
Qed.

Lemma entity_question_outcome_witness :
  asked (Some "Orders from Atlantis") = true /\
  Pandas.empty (fst (question_dff scenario None None None)) = false /\
  Re.search re_specific "orders from atlantis" = Some [(1, "orders"); (2, "atlantis")] /\
  analyze_data_view scenario 1 (Some "Orders from Atlantis") None None None
  = Ok (Markdown "🤖 ❓ Could not find 'atlantis' as a city, state, or category in the overall data.").
Proof.
  do 3 (split; [reflexivity|]).
  exact (entity_question_outcome scenario 1 (Some "Orders from Atlantis") None None None
           [(1, "orders"); (2, "atlantis")] eq_refl eq_refl eq_refl).
Defined.

(** X13. When its column has a value in the view (the guard of lines
    354, 357 and 360), the "top category", "top city" or "top state"
    handler names a value that occurs in the view, with the sum of the
    amounts of its rows, no value of the column having a larger sum. *)
Theorem top_answers_name_best_group (dff : DataFrame) (filter_desc : string) :
  let best (col : row -> string) (k : string) (v : Z) : Prop :=
    (exists r, In r dff /\ col r = k) /\
    v = Pandas.sum (Pandas.where_eq col k dff) /\
    forall r, In r dff -> (Pandas.sum (Pandas.where_eq col (col r) dff) <= v)%Z in
  (Pandas.empty (Pandas.dropna (map Category dff)) = false ->
   exists k v,
     answer_top_category dff filter_desc
     = Ok ("🏆 Top category (by sales) in " ++ filter_desc ++ ": **" ++ k ++ "** (₹"
           ++ fixed2 v 1 ++ ").") /\ best Category k v) /\
  (Pandas.empty (Pandas.dropna (map ship_city dff)) = false ->
   exists k v,
     answer_top_city dff filter_desc
     = Ok ("🏙️ Top city (by sales) in " ++ filter_desc ++ ": **" ++ k ++ "** (₹"
           ++ fixed2 v 1 ++ ").") /\ best ship_city k v) /\
  (Pandas.empty (Pandas.dropna (map ship_state dff)) = false ->
   exists k v,
     answer_top_state dff filter_desc
     = Ok ("📍 Top state (by sales) in " ++ filter_desc ++ ": **" ++ k ++ "** (₹"
           ++ fixed2 v 1 ++ ").") /\ best ship_state k v).
Proof.
  intros best.
  assert (Htop : forall icon what col,
    Pandas.empty (Pandas.dropna (map col dff)) = false ->
    Nat.ltb 0 (List.length (Pandas.unique (map col dff))) = true /\
    exists k v,
      answer_top icon what col dff filter_desc
      = Ok (icon ++ " Top " ++ what ++ " (by sales) in " ++ filter_desc ++ ": **" ++ k
            ++ "** (₹" ++ fixed2 v 1 ++ ").") /\ best col k v).
  { intros icon what col Hcol.
    assert (Hd : dff <> []) by (destruct dff; [discriminate Hcol | discriminate]).
    split; [destruct dff; [congruence | reflexivity]|].
    destruct (idxmax_least_label col dff Hd) as (k & v & Hidx & Hmax & Hin & Hbest).
    exists k, v. unfold answer_top. rewrite Hidx, Hmax. cbn [bind].
    rewrite format_two_decimals. split; [reflexivity|].
    apply groupby_sum_spec in Hin as [Hne Hv].
    split; [now apply where_eq_nonempty|]. split; [exact Hv|].
    intros r Hr.
    apply (Hbest (col r) (Pandas.sum (Pandas.where_eq col (col r) dff))).
    apply groupby_sum_spec. split; [|reflexivity].
    apply where_eq_nonempty. eauto. }
  unfold answer_top_category, answer_top_city, answer_top_state.
  change (Pandas.has_column "ship-city") with true.
  change (Pandas.has_column "ship-state") with true.
  change (Pandas.has_column "Category") with true.
  split; [|split]; intros Hcol; rewrite Hcol; cbn [andb negb].
  - exact (proj2 (Htop "🏆" "category" Category Hcol)).
  - destruct (Htop "🏙️" "city" ship_city Hcol) as [-> Hanswer]. exact Hanswer.
  - destruct (Htop "📍" "state" ship_state Hcol) as [-> Hanswer]. exact Hanswer.
Qed.

Lemma top_answers_name_best_group_witness :
  Pandas.empty (Pandas.dropna (map Category scenario)) = false /\
  exists k v,
    answer_top_category scenario "overall data"
    = Ok ("🏆 Top category (by sales) in overall data: **" ++ k ++ "** (₹"
          ++ fixed2 v 1 ++ ").") /\
    v = Pandas.sum (Pandas.where_eq Category k scenario).
Proof.
  split; [reflexivity|].
  destruct (proj1 (top_answers_name_best_group scenario "overall data") eq_refl)
    as (k & v & Hanswer & _ & Hv & _).
  exists k, v. split; [exact Hanswer | exact Hv].
Defined.

(** ** What the patterns capture *)

Lemma in_skipn {A : Type} (n : nat) (l : list A) (x : A) : In x (skipn n l) -> In x l.
Proof.
  intros Hin. rewrite <- (firstn_skipn n l). apply in_or_app. now right.
Qed.

Section Captures.

Variable p : ascii -> bool.

Lemma every_drop (n : nat) (s : string) : every p s = true -> every p (PyStr.drop n s) = true.
Proof.
  revert s. induction n as [|n IH]; intros [|c s]; simpl; auto.
  rewrite andb_true_iff. intros [_ Hs]. now apply IH.
Qed.

Lemma every_take (n : nat) (s : string) : every p s = true -> every p (PyStr.take n s) = true.
Proof.
  revert s. induction n as [|n IH]; intros [|c s]; simpl; auto.
  rewrite !andb_true_iff. intros [Hc Hs]. split; [assumption | now apply IH].
Qed.

Lemma every_runs (cls : ascii -> bool) (s rest : string) :
  every p s = true -> In rest (Re.runs cls s) -> every p rest = true.
Proof.
  revert rest. induction s as [|c s IH]; intros rest Hs; simpl.
  - intros [<- | []]. reflexivity.
  - intros [<- | Hin]; [exact Hs|].
    simpl in Hs. apply andb_true_iff in Hs as [_ Hs].
    destruct (cls c); [now apply IH | destruct Hin].
Qed.

(** Whatever a pattern captures, and whatever it leaves, is made of
    characters of the input. *)
Lemma run_every (r : Re.regex) (s : string) (m : Re.captures * string) :
  every p s = true -> In m (Re.run r s) ->
  every p (snd m) = true /\ forall n v, In (n, v) (fst m) -> every p v = true.
Proof.
  revert s m. induction r as [l | r1 IH1 r2 IH2 | r1 IH1 r2 IH2 | cls min greedy | k r1 IH1];
    intros s m Hs Hin; simpl in Hin.
  - destruct (prefix l s); [|destruct Hin].
    destruct Hin as [<- | []]. split; [now apply every_drop | intros n v []].
  - apply in_app_or in Hin as [Hin | Hin]; eauto.
  - apply in_flat_map in Hin as (m1 & Hm1 & Hin).
    apply in_map_iff in Hin as (m2 & <- & Hm2).
    destruct (IH1 s m1 Hs Hm1) as [Hrest1 Hcaps1].
    destruct (IH2 (snd m1) m2 Hrest1 Hm2) as [Hrest2 Hcaps2].
    split; [exact Hrest2|]. simpl. intros n v Hv.
    apply in_app_or in Hv as [Hv | Hv]; eauto.
  - apply in_map_iff in Hin as (rest & <- & Hrest).
    split; [|intros n v []]. simpl.
    assert (Hrun : In rest (Re.runs cls s)).
    { destruct greedy; [apply in_rev in Hrest|]; eapply in_skipn; eassumption. }
    now apply (every_runs cls s).
  - apply in_map_iff in Hin as (m1 & <- & Hm1).
    destruct (IH1 s m1 Hs Hm1) as [Hrest1 Hcaps1].
    split; [exact Hrest1|]. simpl. intros n v [Hv | Hv]; [|eauto].
    injection Hv as _ <-. now apply every_take.
Qed.

Lemma search_every (r : Re.regex) (s : string) (m : Re.captures) :
  every p s = true -> Re.search r s = Some m ->
  forall n v, In (n, v) m -> every p v = true.
Proof.
  induction s as [|c s IH]; simpl; intros Hs Hm.
  - destruct (Re.run r EmptyString) as [|m0 ms] eqn:Hrun; [discriminate|].
    injection Hm as <-.
    apply (run_every r EmptyString m0 eq_refl). rewrite Hrun. now left.
  - destruct (Re.run r (String c s)) as [|m0 ms] eqn:Hrun.
    + apply andb_true_iff in Hs as [_ Hs]. now apply IH.
    + injection Hm as <-.
      apply (run_every r (String c s) m0 Hs). rewrite Hrun. now left.
Qed.

Lemma group_every (n : nat) (m : Re.captures) :
  (forall k v, In (k, v) m -> every p v = true) -> every p (Re.group n m) = true.
Proof.
  induction m as [|[k v] m IH]; simpl; intros Hm; [reflexivity|].
  destruct (Nat.eqb k n); [eapply Hm; now left | apply IH; eauto].
Qed.

Lemma every_lstrip (s : string) : every p s = true -> every p (PyStr.lstrip s) = true.
Proof.
  induction s as [|c s IH]; simpl; [trivial|]. intros Hs.
  destruct (PyStr.is_space c); [|exact Hs].
  apply andb_true_iff in Hs as [_ Hs]. now apply IH.
Qed.

Lemma every_rstrip (s : string) : every p s = true -> every p (PyStr.rstrip s) = true.
Proof.
  induction s as [|c s IH]; simpl; [trivial|]. intros Hs.
  apply andb_true_iff in Hs as [Hc Hs]. specialize (IH Hs).
  destruct (PyStr.rstrip s).
  - destruct (PyStr.is_space c); [reflexivity|]. simpl. now rewrite Hc.
  - simpl in *. now rewrite Hc, IH.
Qed.

Lemma every_strip (s : string) : every p s = true -> every p (PyStr.strip s) = true.
Proof. intros Hs. now apply every_rstrip, every_lstrip. Qed.

End Captures.

(** The text a question's pattern captures has no upper-case letter. *)
Lemma captured_no_upper (r : Re.regex) (q : option string) (m : Re.captures) (n : nat) :
  Re.search r (PyStr.strip (PyStr.lower (text_of q))) = Some m ->
  no_upper (PyStr.strip (Re.group n m)) = true.
Proof.
  intros Hm. unfold no_upper. apply every_strip, group_every.
  apply (search_every _ r (PyStr.strip (PyStr.lower (text_of q)))); [|exact Hm].
  apply every_strip, lower_no_upper.
Qed.

(** X11. The order id taken from a question has no upper-case letter,
    the question being lower-cased before the pattern is applied; so a
    row whose order id holds one is never returned by the lookup, and on
    a table where every order id holds one (such as the "Unknown" ids of
    a file without that column) every order question over a non-empty
    view is answered "not found". *)
Theorem uppercase_order_ids_unreachable (df : DataFrame) (n_clicks : nat) (q : option string)
    (categories states statuses : selection) (m : Re.captures) :
  let msg := PyStr.strip (PyStr.lower (text_of q)) in
  let order_id := PyStr.strip (Re.group 2 m) in
  Re.search re_order msg = Some m ->
  no_upper order_id = true /\
  (forall d r, In r (Pandas.where_eq Order_ID order_id d) -> no_upper (Order_ID r) = true) /\
  (asked q = true ->
   Pandas.empty (fst (question_dff df categories states statuses)) = false ->
   Re.search re_specific msg = None ->
   (forall r, In r df -> no_upper (Order_ID r) = false) ->
   analyze_data_view df n_clicks q categories states statuses
   = Ok (Markdown (bot_prefix ++ not_found_message order_id))).
Proof.
  intros msg order_id Horder.
  assert (Hid : no_upper order_id = true) by exact (captured_no_upper re_order q m 2 Horder).
  assert (Hrows : forall d r, In r (Pandas.where_eq Order_ID order_id d) ->
                              no_upper (Order_ID r) = true).
  { intros d r Hr. apply filter_In in Hr as [_ Heq].
    apply String.eqb_eq in Heq. now rewrite Heq. }
  split; [exact Hid|]. split; [exact Hrows|].
  intros Hq Hdff Hspecific Hupper.
  assert (Hnone : forall d, (forall r, In r d -> In r df) ->
                            Pandas.where_eq Order_ID order_id d = []).
  { intros d Hsub.
    destruct (Pandas.where_eq Order_ID order_id d) as [|r rest] eqn:Hlook; [reflexivity|].
    assert (Hr : In r (Pandas.where_eq Order_ID order_id d)) by (rewrite Hlook; now left).
    pose proof (Hrows d r Hr) as Hlow.
    apply filter_In in Hr as [Hin _]. rewrite (Hupper r (Hsub r Hin)) in Hlow. discriminate. }
  rewrite analyze_nonempty; [|exact Hq | exact Hdff].
  fold msg. unfold interpret. rewrite Hspecific, Horder.
  unfold answer_order. fold order_id.
  change (Pandas.has_column "Order ID") with true. cbn [negb].
  rewrite (Hnone (fst (question_dff df categories states statuses))).
  - now rewrite (Hnone df (fun r H => H)).
  - intros r Hr. rewrite question_dff_filter in Hr. now apply filter_In in Hr.
Qed.

Lemma uppercase_order_ids_unreachable_witness :
  Re.search re_order "details for order unknown" = Some [(1, "details"); (2, "unknown")] /\
  map Order_ID unknown_orders = ["Unknown"; "Unknown"] /\
  analyze_data_view unknown_orders 1 (Some "Details for order Unknown") None None None
  = Ok (Markdown "🤖 🚫 Order ID **unknown** not found in the dataset.").
Proof.
  do 2 (split; [reflexivity|]).
  apply (uppercase_order_ids_unreachable unknown_orders 1 (Some "Details for order Unknown")
           None None None [(1, "details"); (2, "unknown")] eq_refl);
    try reflexivity.
  intros r Hr. vm_compute in Hr. destruct Hr as [<- | [<- | []]]; reflexivity.
Defined.

(** ** Counting by status *)

Section Counting.

Variable col : row -> string.

Let tally (g : Pandas.series nat) (r : row) : Pandas.series nat := Pandas.add_count (col r) g.

Lemma occurrences_of_add (k k' : string) (g : Pandas.series nat) :
  occurrences_of k (Pandas.add_count k' g)
  = if String.eqb k k' then S (occurrences_of k g) else occurrences_of k g.
Proof.
  induction g as [|[k1 n] g IH]; simpl; [now destruct (String.eqb k k')|].
  destruct (String.eqb k' k1) eqn:Hk'; simpl.
  - apply String.eqb_eq in Hk' as ->. now destruct (String.eqb k k1).
  - rewrite IH. destruct (String.eqb k k1) eqn:Hk; [|reflexivity].
    apply String.eqb_eq in Hk as ->. now rewrite String.eqb_sym, Hk'.
Qed.

Lemma occurrences_of_fold (k : string) (d : DataFrame) (g : Pandas.series nat) :
  occurrences_of k (fold_left tally d g)
  = occurrences_of k g + List.length (Pandas.where_eq col k d).
Proof.
  revert g. induction d as [|r d IH]; intros g; simpl; [lia|].
  rewrite IH. unfold tally. rewrite occurrences_of_add, (String.eqb_sym k (col r)).
  destruct (String.eqb (col r) k); simpl; lia.
Qed.

Lemma add_count_labels (k : string) (g : Pandas.series nat) :
  map fst (Pandas.add_count k g)
  = if existsb (String.eqb k) (map fst g) then map fst g else (map fst g ++ [k])%list.
Proof.
  induction g as [|[k1 n] g IH]; simpl; [reflexivity|].
  destruct (String.eqb k k1); simpl; [reflexivity|].
  rewrite IH. now destruct (existsb (String.eqb k) (map fst g)).
Qed.

Lemma add_count_nodup (k : string) (g : Pandas.series nat) :
  NoDup (map fst g) -> NoDup (map fst (Pandas.add_count k g)).
Proof.
  intros Hg. rewrite add_count_labels.
  destruct (existsb (String.eqb k) (map fst g)) eqn:Hk; [assumption|].
  apply NoDup_app; [assumption | repeat constructor; intros [] |].
  intros x Hx [<- | []]. apply existsb_eqb_true in Hx. congruence.
Qed.

Lemma add_count_positive (k : string) (g : Pandas.series nat) :
  Forall (fun e => 0 < snd e) g -> Forall (fun e => 0 < snd e) (Pandas.add_count k g).
Proof.
  induction 1 as [|[k1 n] g Hn Hg IH]; simpl.
  - repeat constructor.
  - destruct (String.eqb k k1); constructor; simpl in *; auto; lia.
Qed.

Lemma fold_counts_invariant (d : DataFrame) (g : Pandas.series nat) :
  NoDup (map fst g) -> Forall (fun e => 0 < snd e) g ->
  NoDup (map fst (fold_left tally d g)) /\ Forall (fun e => 0 < snd e) (fold_left tally d g).
Proof.
  revert g. induction d as [|r d IH]; intros g Hnd Hpos; simpl; [now split|].
  apply IH; [now apply add_count_nodup | now apply add_count_positive].
Qed.

Lemma occurrences_of_in (k : string) (n : nat) (g : Pandas.series nat) :
  NoDup (map fst g) -> In (k, n) g -> occurrences_of k g = n.
Proof.
  induction g as [|[k1 n1] g IH]; simpl; intros Hnd Hin; [destruct Hin|].
  apply NoDup_cons_iff in Hnd as [Hk1 Hnd].
  destruct Hin as [Heq | Hin].
  - injection Heq as -> ->. now rewrite String.eqb_refl.
  - destruct (String.eqb k k1) eqn:Hk; [|now apply IH].
    apply String.eqb_eq in Hk as ->. exfalso. apply Hk1.
    change k1 with (fst (k1, n)). now apply in_map.
Qed.

Lemma in_occurrences_of (k : string) (g : Pandas.series nat) :
  occurrences_of k g <> 0 -> In (k, occurrences_of k g) g.
Proof.
  induction g as [|[k1 n1] g IH]; simpl; [congruence|].
  destruct (String.eqb k k1) eqn:Hk.
  - apply String.eqb_eq in Hk as ->. now left.
  - intros Hne. right. now apply IH.
Qed.

Lemma geq_total (a b : nat) : Nat.leb b a = true \/ Nat.leb a b = true.
Proof. rewrite !Nat.leb_le. lia. Qed.

Lemma geq_trans (a b c : nat) :
  Nat.leb b a = true -> Nat.leb c b = true -> Nat.leb c a = true.
Proof. rewrite !Nat.leb_le. lia. Qed.

Lemma sorted_non_increasing (s : Pandas.series nat) :
  StronglySorted (fun x y => Nat.leb (snd y) (snd x) = true) s -> non_increasing s = true.
Proof.
  induction 1 as [|x s Hs IH Hx]; [reflexivity|].
  destruct s as [|y s]; [reflexivity|].
  simpl in *. rewrite IH. apply Forall_inv in Hx. now rewrite Hx.
Qed.

(** [value_counts]: one entry per value of the column, with the number
    of rows holding it, the larger counts first. *)
Lemma value_counts_spec (d : DataFrame) :
  NoDup (map fst (Pandas.value_counts col d)) /\
  (forall k n, In (k, n) (Pandas.value_counts col d)
               <-> n = List.length (Pandas.where_eq col k d) /\ 0 < n) /\
  non_increasing (Pandas.value_counts col d) = true.
Proof.
  unfold Pandas.value_counts. fold tally.
  set (le := fun a b : nat => Nat.leb b a).
  pose proof (sort_by_permutation le (fold_left tally d [])) as Hperm.
  destruct (fold_counts_invariant d [] (NoDup_nil _) (Forall_nil _)) as [Hnd Hpos].
  split; [|split].
  - eapply Permutation_NoDup; [apply Permutation_map; exact Hperm | exact Hnd].
  - intros k n. split.
    + intros Hin. apply (Permutation_in _ (Permutation_sym Hperm)) in Hin.
      rewrite Forall_forall in Hpos. split; [|exact (Hpos _ Hin)].
      rewrite <- (occurrences_of_in k n _ Hnd Hin), occurrences_of_fold. reflexivity.
    + intros [Hn Hpos']. apply (Permutation_in _ Hperm).
      pose proof (occurrences_of_fold k d []) as Hocc. simpl in Hocc.
      rewrite Hn, <- Hocc. apply in_occurrences_of. lia.
  - apply sorted_non_increasing.
    apply (sort_by_sorted le).
    + intros a b. unfold le. destruct (geq_total a b); auto.
    + intros a b c. unfold le. apply geq_trans.
Qed.

End Counting.

Lemma summary_lines (counts : Pandas.series nat) :
  for_each (fun sc : string * nat =>
              count <- format (Int (Z.of_nat (snd sc))) "," ;;
              Ok ("- **" ++ fst sc ++ ":** " ++ count ++ " orders"))
           counts
  = Ok (map summary_line counts).
Proof.
  induction counts as [|sc counts IH]; [reflexivity|].
  cbn [for_each]. rewrite format_thousands, IH. reflexivity.
Qed.

(** X12. When some order of the view has a status (the guard of line
    363), the status summary lists every status of the view exactly once
    with the number of orders having it, most frequent first, and the
    listed numbers add up to the number of orders that have a status. *)
Theorem status_summary_counts (dff : DataFrame) (filter_desc : string) :
  Pandas.empty (Pandas.dropna (map Status dff)) = false ->
  let counts := Pandas.value_counts Status dff in
  answer_status_summary dff filter_desc
  = Ok (PyStr.join PyStr.newline
          (("📋 Status summary for " ++ filter_desc ++ ":") :: map summary_line counts)) /\
  NoDup (map fst counts) /\
  (forall k n, In (k, n) counts
               <-> n = List.length (Pandas.where_eq Status k dff) /\ 0 < n) /\
  non_increasing counts = true /\
  count_of counts = List.length (Pandas.dropna (map Status dff)).
Proof.
  intros Hguard counts.
  destruct (value_counts_spec Status dff) as (Hnd & Hin & Hsorted).
  split; [|split; [exact Hnd | split; [exact Hin | split; [exact Hsorted|]]]].
  - unfold answer_status_summary.
    change (Pandas.has_column "Status") with true.
    rewrite Hguard. cbn [andb negb]. rewrite summary_lines. reflexivity.
  - unfold Pandas.dropna. rewrite length_map. apply value_counts_total.
Qed.

Lemma status_summary_counts_witness :
  Pandas.empty (Pandas.dropna (map Status scenario)) = false /\
  answer_status_summary scenario "overall data"
  = Ok (PyStr.join PyStr.newline
          ["📋 Status summary for overall data:"; "- **Delivered:** 1 orders";
           "- **Cancelled:** 1 orders"]) /\
  count_of (Pandas.value_counts Status scenario) = 2.
Proof.
  split; [reflexivity|].
  destruct (status_summary_counts scenario "overall data" eq_refl)
    as (Hanswer & _ & _ & _ & Hcount).
  split; [exact Hanswer | exact Hcount].
Defined.

(** ** How filters combine *)

Lemma filter_implies_subsequence {A : Type} (p q : A -> bool) (l : list A) :
  (forall x, In x l -> p x = true -> q x = true) ->
  subsequence (filter p l) (filter q l).
Proof.
  induction l as [|x l IH]; simpl; intros Hpq; [constructor|].
  assert (IH' : subsequence (filter p l) (filter q l))
    by (apply IH; intros y Hy; apply Hpq; now right).
  destruct (p x) eqn:Hp.
  - rewrite (Hpq x (or_introl eq_refl) Hp). now constructor.
  - destruct (q x); [now constructor | assumption].
Qed.

(** X14. Filtering one dropdown at a time gives the view of the combined
    selection, in whatever order the dropdowns are applied. *)
Theorem filters_compose (df : DataFrame) (categories states statuses : selection) :
  dashboard_dff (dashboard_dff (dashboard_dff df categories None None) None states None)
                None None statuses
  = dashboard_dff df categories states statuses /\
  dashboard_dff (dashboard_dff (dashboard_dff df None None statuses) None states None)
                categories None None
  = dashboard_dff df categories states statuses /\
  dashboard_dff (dashboard_dff df None states None) categories None statuses
  = dashboard_dff df categories states statuses.
Proof.
  rewrite !dashboard_dff_filter, !filter_twice.
  repeat split; apply filter_ext; intros r; unfold includedb; simpl;
    destruct (Pandas.empty (options categories) || _);
    destruct (Pandas.empty (options states) || _);
    destruct (Pandas.empty (options statuses) || _); reflexivity.
Qed.

(** X15. Adding values to a selection that is not empty never removes
    rows: the smaller view is a subsequence of the larger one. *)
Theorem wider_selection_wider_view (df : DataFrame)
    (categories categories' states states' statuses statuses' : selection) :
  selected categories = true -> selected states = true -> selected statuses = true ->
  incl (options categories) (options categories') ->
  incl (options states) (options states') ->
  incl (options statuses) (options statuses') ->
  subsequence (dashboard_dff df categories states statuses)
              (dashboard_dff df categories' states' statuses').
Proof.
  intros Hc Hs Ht Hcc Hss Htt.
  rewrite !dashboard_dff_filter. apply filter_implies_subsequence.
  intros r _. unfold includedb.
  rewrite selected_options in Hc, Hs, Ht.
  apply negb_true_iff in Hc, Hs, Ht. rewrite Hc, Hs, Ht. simpl.
  rewrite !andb_true_iff, !existsb_eqb_In.
  intros [[Hrc Hrs] Hrt].
  rewrite (existsb_eqb_true _ _ (Hcc _ Hrc)), (existsb_eqb_true _ _ (Hss _ Hrs)),
    (existsb_eqb_true _ _ (Htt _ Hrt)), !orb_true_r.
  auto.
Qed.

Lemma wider_selection_wider_view_witness :
  subsequence (dashboard_dff scenario (Some ["Books"]) (Some ["Delhi"]) (Some ["Cancelled"]))
              (dashboard_dff scenario (Some ["Books"; "Electronics"]) (Some ["Delhi"])
                             (Some ["Shipped"; "Cancelled"])).
Proof.
  apply (wider_selection_wider_view scenario (Some ["Books"]) (Some ["Books"; "Electronics"])
           (Some ["Delhi"]) (Some ["Delhi"]) (Some ["Cancelled"])
           (Some ["Shipped"; "Cancelled"]));
    try reflexivity; intros x [<- | []]; simpl; auto.
Defined.

(** X16. On a non-empty view the monthly trend has one point per month
    of the view, in strictly increasing order of the month label, each
    point being the sum of the amounts of that month. *)
Theorem monthly_trend_points (df : DataFrame) (categories states statuses : selection) :
  let dff := dashboard_dff df categories states statuses in
  dff <> [] ->
  exists d,
    update_dashboard df categories states statuses = Ok d /\
    sales_trend d = line "📈 Monthly Sales Trend" (monthly_sales dff) /\
    sorted_labels (monthly_sales dff) /\
    forall k v,
      In (k, v) (monthly_sales dff)
      <-> (exists r, In r dff /\ Month r = k) /\ v = Pandas.sum (Pandas.where_eq Month k dff).
Proof.
  intros dff Hd. eexists.
  split; [apply update_dashboard_nonempty; exact Hd|]. fold dff.
  split; [reflexivity|].
  split; [apply groupby_sum_sorted|].
  intros k v. unfold monthly_sales.
  rewrite groupby_sum_spec, where_eq_nonempty. reflexivity.
Qed.

Lemma monthly_trend_points_witness :
  dashboard_dff scenario None None None <> [] /\
  exists d,
    update_dashboard scenario None None None = Ok d /\
    sales_trend d
    = line "📈 Monthly Sales Trend" [("2022-04", 10000%Z); ("2022-05", 5000%Z)].
Proof.
  assert (Hd : dashboard_dff scenario None None None <> []) by discriminate.
  split; [exact Hd|].
  destruct (monthly_trend_points scenario None None None Hd) as (d & Hboard & Htrend & _).
  exists d. split; [exact Hboard | exact Htrend].
Defined.
